(** * dbt-query-tool: a shallow embedding of [dbt_query_tool.py]

    The tool reads a dbt [catalog.json], looks tables up in it, and prints
    canned advice together with sample data obtained from an embedded
    DuckDB session.  This file embeds the program function by function and
    proves the properties its specification states.

    Modelling conventions.
    - A value produced by [json.load] is a [pyval]; Python's [None] is
      [PyNone].  A [dict] is an association list in insertion order.
    - A Python [str] is a Rocq [string] (its UTF-8 bytes), so equality and
      concatenation coincide.  [str.lower] works on code points and is kept
      abstract ([str_lower]); [lower_ascii] is its restriction to ASCII.
    - Functions that only compute return [res A]: a value or the Python
      exception they raise.  Functions that print, touch the file system or
      the engine, or call [sys.exit], live in the monad [M], which records
      the events of the run in order.
    - The file system, the DuckDB engine and the import-time flag
      [DUCKDB_AVAILABLE] are the environment of a run: Section variables. *)

From Stdlib Require Import String Ascii List ZArith Bool Lia.
From Stdlib Require Import Floats.SpecFloat.
Import ListNotations.
Open Scope list_scope.
Open Scope string_scope.

Set Implicit Arguments.
Set Warnings "-register-all".

(* ------------------------------------------------------------------ *)
(** * Python values *)

Inductive pyval : Type :=
| PyNone
| PyBool (b : bool)
| PyInt (n : Z)
| PyFloat (f : spec_float)
| PyStr (s : string)
| PyList (l : list pyval)
| PyDict (d : list (string * pyval)).

(** [bool(v)], the test behind [if v:] and [not v]. *)
Definition truthy (v : pyval) : bool :=
  match v with
  | PyNone => false
  | PyBool b => b
  | PyInt n => negb (n =? 0)%Z
  | PyFloat (S754_zero _) => false
  | PyFloat _ => true
  | PyStr s => negb (s =? "")
  | PyList [] => false
  | PyList (_ :: _) => true
  | PyDict [] => false
  | PyDict (_ :: _) => true
  end.

(** The exceptions the catalog functions can raise. *)
Inductive exn : Type :=
| KeyError (key : string)
| TypeError
| AttributeError.

Inductive res (A : Type) : Type :=
| Ok (a : A)
| Err (e : exn).
Arguments Err {A} e.

Definition res_bind {A B} (r : res A) (k : A -> res B) : res B :=
  match r with
  | Ok a => k a
  | Err e => Err e
  end.

Declare Scope res_scope.
Delimit Scope res_scope with res.
Notation "x <- r ;; k" := (res_bind r (fun x => k))
  (at level 100, r at next level, right associativity) : res_scope.

(** Key lookup in a [dict]. *)
Fixpoint assoc (k : string) (d : list (string * pyval)) : option pyval :=
  match d with
  | [] => None
  | (k', v) :: rest => if k =? k' then Some v else assoc k rest
  end.

(** [v[k]] for a [str] key: only a [dict] can be subscripted by a [str]. *)
Definition getitem (v : pyval) (k : string) : res pyval :=
  match v with
  | PyDict d =>
      match assoc k d with
      | Some x => Ok x
      | None => Err (KeyError k)
      end
  | _ => Err TypeError
  end.

(** [v.values()] and [v.items()]. *)
Definition values (v : pyval) : res (list pyval) :=
  match v with
  | PyDict d => Ok (map snd d)
  | _ => Err AttributeError
  end.

Definition items (v : pyval) : res (list (string * pyval)) :=
  match v with
  | PyDict d => Ok d
  | _ => Err AttributeError
  end.

(** [v.get(k, default)]. *)
Definition get_default (v : pyval) (k : string) (default : pyval) : res pyval :=
  match v with
  | PyDict d =>
      match assoc k d with
      | Some x => Ok x
      | None => Ok default
      end
  | _ => Err AttributeError
  end.

(** [v in (s1, ..., sn)] for a tuple of [str]: [==] between a [str] and a
    value of another type is [False]. *)
Definition in_str_tuple (v : pyval) (t : list string) : bool :=
  match v with
  | PyStr s => existsb (String.eqb s) t
  | _ => false
  end.

Definition queryable_types : list string :=
  ["model"; "seed"; "snapshot"; "table"; "view"].

(* ------------------------------------------------------------------ *)
(** * ASCII lower-casing: [str.lower] on ASCII text *)

Definition lower_ascii_char (c : ascii) : ascii :=
  let n := nat_of_ascii c in
  if (65 <=? n)%nat && (n <=? 90)%nat then ascii_of_nat (n + 32) else c.

Fixpoint lower_ascii (s : string) : string :=
  match s with
  | EmptyString => EmptyString
  | String c rest => String (lower_ascii_char c) (lower_ascii rest)
  end.

(* ------------------------------------------------------------------ *)
(** * Catalog documents as the tool expects them

    The input format: a document with a top-level [nodes] mapping whose
    entries are mappings with at least a string [name] and a
    [resource_type]. *)

Definition node_attr (k : string) (node : pyval) : option pyval :=
  match node with
  | PyDict d => assoc k d
  | _ => None
  end.

Definition node_name (node : pyval) : pyval :=
  match node_attr "name" node with
  | Some v => v
  | None => PyNone
  end.

Definition is_queryable (node : pyval) : bool :=
  match node_attr "resource_type" node with
  | Some (PyStr s) => existsb (String.eqb s) queryable_types
  | _ => false
  end.

Definition valid_node (node : pyval) : bool :=
  match node_attr "name" node, node_attr "resource_type" node with
  | Some (PyStr _), Some _ => true
  | _, _ => false
  end.

(** The node list of a document, in mapping order, when it has one. *)
Definition catalog_nodes (doc : pyval) : option (list pyval) :=
  match doc with
  | PyDict d =>
      match assoc "nodes" d with
      | Some (PyDict ns) => Some (map snd ns)
      | _ => None
      end
  | _ => None
  end.

Definition valid_catalog (doc : pyval) : bool :=
  match catalog_nodes doc with
  | Some nodes => forallb valid_node nodes
  | None => false
  end.

Definition has_key (k : string) (node : pyval) : bool :=
  match node_attr k node with
  | Some _ => true
  | None => false
  end.

(** What [get_table_names] reads of a node: [resource_type], and [name]
    when the type is one it lists. *)
Definition listable_node (node : pyval) : bool :=
  has_key "resource_type" node &&
  (negb (is_queryable node) || has_key "name" node).

(** What [get_table_info] reads of a node: a string [name]. *)
Definition named_node (node : pyval) : bool :=
  match node_attr "name" node with
  | Some (PyStr _) => true
  | _ => false
  end.

Definition is_dict (v : pyval) : bool :=
  match v with
  | PyDict _ => true
  | _ => false
  end.

(* ------------------------------------------------------------------ *)
(** * The Catalog Index *)

Section CatalogIndex.

(** [str.lower]. *)
Variable str_lower : string -> string.

Definition lower (v : pyval) : res string :=
  match v with
  | PyStr s => Ok (str_lower s)
  | _ => Err AttributeError
  end.

(** The [for] loop of [get_table_info]. *)
Fixpoint get_table_info_loop (nodes : list pyval) (table_name : string)
  : res pyval :=
  match nodes with
  | [] => Ok PyNone
  | node :: rest =>
      (name <- getitem node "name" ;;
       lname <- lower name ;;
       if lname =? str_lower table_name then Ok node
       else get_table_info_loop rest table_name)%res
  end.

Definition get_table_info (catalog_data : pyval) (table_name : string)
  : res pyval :=
  if negb (truthy catalog_data) then Ok PyNone
  else
    (nodes <- getitem catalog_data "nodes" ;;
     vs <- values nodes ;;
     get_table_info_loop vs table_name)%res.

(** The specification's reading of the lookup: the first node, in
    mapping order, whose name equals the query up to case. *)
Definition name_matches (table_name : string) (node : pyval) : bool :=
  match node_name node with
  | PyStr s => str_lower s =? str_lower table_name
  | _ => false
  end.

Definition first_match (nodes : list pyval) (table_name : string) : pyval :=
  match find (name_matches table_name) nodes with
  | Some node => node
  | None => PyNone
  end.

End CatalogIndex.

(** The [for] loop of [get_table_names]; [table_names] is the list built
    so far. *)
Fixpoint get_table_names_loop (nodes : list pyval) (table_names : list pyval)
  : res (list pyval) :=
  match nodes with
  | [] => Ok table_names
  | node :: rest =>
      (rt <- getitem node "resource_type" ;;
       if in_str_tuple rt queryable_types then
         name <- getitem node "name" ;;
         get_table_names_loop rest (table_names ++ [name])%list
       else get_table_names_loop rest table_names)%res
  end.

Definition get_table_names (catalog_data : pyval) : res (list pyval) :=
  if negb (truthy catalog_data) then Ok []
  else
    (nodes <- getitem catalog_data "nodes" ;;
     vs <- values nodes ;;
     get_table_names_loop vs [])%res.

(* ------------------------------------------------------------------ *)
(** * Runs: events, outcomes and the monad [M] *)

(** What a run does to the outside world, in order. *)
Inductive event : Type :=
| EvOpen (path : string)        (* open(path, 'r') is attempted *)
| EvPrint (line : string)       (* print(line) *)
| EvConnect                     (* duckdb.connect(':memory:') returned *)
| EvExecute (query : string)    (* conn.execute(query) is called *)
| EvClose.                      (* conn.close() *)

(** How a computation ends: with a value, with an uncaught exception, or
    with [sys.exit(code)]. *)
Inductive outcome (A : Type) : Type :=
| Ret (a : A)
| Raise (e : exn)
| Exit (code : Z).
Arguments Raise {A} e.
Arguments Exit {A} code.

Definition M (A : Type) : Type := (list event * outcome A)%type.

Definition ret {A} (a : A) : M A := ([], Ret a).

Definition bind {A B} (m : M A) (k : A -> M B) : M B :=
  match m with
  | (t, Ret a) => let (t', o) := k a in ((t ++ t')%list, o)
  | (t, Raise e) => (t, Raise e)
  | (t, Exit c) => (t, Exit c)
  end.

Declare Scope io_scope.
Delimit Scope io_scope with io.
Notation "x <- m ;; k" := (bind m (fun x => k))
  (at level 100, m at next level, right associativity) : io_scope.
Notation "m ;; k" := (bind m (fun _ => k))
  (at level 100, right associativity) : io_scope.

Definition emit (e : event) : M unit := ([e], Ret tt).
Definition print (line : string) : M unit := emit (EvPrint line).
Definition sys_exit {A} (code : Z) : M A := ([], Exit code).

(** A pure computation inside a run: its exception, if any, is uncaught. *)
Definition lift {A} (r : res A) : M A :=
  match r with
  | Ok a => ret a
  | Err e => ([], Raise e)
  end.

(** [for x in l: body(x)]. *)
Fixpoint for_each {A} (l : list A) (body : A -> M unit) : M unit :=
  match l with
  | [] => ret tt
  | x :: rest => (body x ;; for_each rest body)%io
  end.

Definition trace {A} (m : M A) : list event := fst m.
Definition outcome_of {A} (m : M A) : outcome A := snd m.

(** The process exit status of a run of [main]: 0 when it returns, the
    argument of [sys.exit] when that is called; an uncaught exception is
    a crash, not an exit the program chose. *)
Definition exit_code (m : M unit) : option Z :=
  match outcome_of m with
  | Ret _ => Some 0%Z
  | Exit c => Some c
  | Raise _ => None
  end.

(** The lines printed by a run. *)
Fixpoint printed (t : list event) : list string :=
  match t with
  | [] => []
  | EvPrint s :: rest => s :: printed rest
  | _ :: rest => printed rest
  end.

(** Sessions opened and not yet closed at the end of a trace. *)
Fixpoint open_sessions (t : list event) (n : nat) : nat :=
  match t with
  | [] => n
  | EvConnect :: rest => open_sessions rest (S n)
  | EvClose :: rest => open_sessions rest (pred n)
  | _ :: rest => open_sessions rest n
  end.

Definition count_event (p : event -> bool) (t : list event) : nat :=
  length (filter p t).

Definition is_close (e : event) : bool :=
  match e with EvClose => true | _ => false end.
Definition is_open (e : event) : bool :=
  match e with EvOpen _ => true | _ => false end.
Definition is_engine_event (e : event) : bool :=
  match e with EvConnect | EvExecute _ | EvClose => true | _ => false end.

(* ------------------------------------------------------------------ *)
(** * The environment of a run *)

(** What [open(path)] followed by [json.load] does. *)
Inductive read_outcome : Type :=
| ReadOk (v : pyval)
| FileNotFoundError
| JSONDecodeError
| OtherException (e : string).   (* any other Exception, with its str() *)

Definition read_failed (r : read_outcome) : bool :=
  match r with
  | ReadOk _ => false
  | _ => true
  end.

(** The DuckDB module as the tool uses it.  A call either returns ([inr])
    or raises an exception, given by its text ([inl]).  [conn.close()] is
    taken to return. *)
Record engine (frame : Type) : Type := {
  connect : string + unit;                  (* duckdb.connect(':memory:') *)
  execute_fetchdf : string -> string + frame; (* conn.execute(q).fetchdf() *)
  head_to_string : frame -> string + string;  (* df.head().to_string() *)
  to_string : frame -> string + string        (* df.to_string() *)
}.

Definition nl : string := String (ascii_of_nat 10) EmptyString.

(** The command line after [argparse]: [--llm] is one of its three
    choices, [--api-key] is [None] when it is not given. *)
Record args : Type := {
  question : list string;
  catalog : string;
  llm : string;
  api_key : option string;
  data_path : string
}.

(** The values [args.llm] can take: the [choices] of [--llm]. *)
Definition llm_choices : list string := ["openai"; "ollama"; "debug"].

(** What [parser.parse_args()] guarantees of the [args] it returns: at
    least one question word ([nargs="+"]) and a backend among the choices.
    On any other command line [parse_args] itself ends the process, with
    status 2, before the body of [main] embedded below starts; such
    command lines are outside the model, and the properties of whole runs
    are stated for parsed ones. *)
Definition parsed_args (a : args) : bool :=
  match question a with
  | [] => false
  | _ :: _ => existsb (String.eqb (llm a)) llm_choices
  end.

(** [bool(s)] for an optional string. *)
Definition opt_truthy (o : option string) : bool :=
  match o with
  | None => false
  | Some s => negb (s =? "")
  end.

Definition not_available : string :=
  "DuckDB is not available. Please install it to use this feature.".

Definition related_tables_stub : list string :=
  ["customers"; "orders"; "products"].

(* ------------------------------------------------------------------ *)
(** * The Sample Query Generator *)

Section QueryGenerator.

Variable DUCKDB_AVAILABLE : bool.

Definition generate_duckdb_query (table_name catalog_path : string)
  : option string :=
  if negb DUCKDB_AVAILABLE then None
  else Some ("SELECT * FROM read_parquet('" ++ table_name
             ++ "/*.parquet') LIMIT 5").

End QueryGenerator.

(* ------------------------------------------------------------------ *)
(** * Loader, sampling adapter and [main] *)

Section Run.

Variable str_lower : string -> string.
(** [str(v)] of a value that is not a [str]. *)
Variable py_str : pyval -> string.
Variable DUCKDB_AVAILABLE : bool.
Variable frame : Type.
Variable duckdb : engine frame.
Variable fs : string -> read_outcome.

Local Open Scope io_scope.

(** A value inside an f-string. *)
Definition format_value (v : pyval) : string :=
  match v with
  | PyStr s => s
  | _ => py_str v
  end.

Definition load_catalog (catalog_path : string) : M pyval :=
  emit (EvOpen catalog_path) ;;
  match fs catalog_path with
  | ReadOk catalog_data => ret catalog_data
  | FileNotFoundError =>
      print ("Error: catalog.json file not found at " ++ catalog_path) ;;
      ret PyNone
  | JSONDecodeError =>
      print ("Error: Invalid JSON in catalog.json at " ++ catalog_path) ;;
      ret PyNone
  | OtherException e =>
      print ("Error loading catalog.json: " ++ e) ;;
      ret PyNone
  end.

Definition get_sample_data_duckdb (table_name catalog_path : string)
  : M string :=
  if negb DUCKDB_AVAILABLE then ret not_available
  else
    match generate_duckdb_query DUCKDB_AVAILABLE table_name catalog_path with
    | None => ret "DuckDB query generation failed."
    | Some query =>
        let except e := ret ("Error retrieving sample data with DuckDB: " ++ e) in
        match connect duckdb with
        | inl e => except e
        | inr _ =>
            emit EvConnect ;;
            emit (EvExecute query) ;;
            match execute_fetchdf duckdb query with
            | inl e => except e
            | inr df =>
                emit EvClose ;;
                match head_to_string duckdb df with
                | inl e => except e
                | inr text => ret text
                end
            end
        end
    end.

Definition get_table_schema_duckdb (table_name catalog_path : string)
  : M string :=
  if negb DUCKDB_AVAILABLE then ret not_available
  else
    match generate_duckdb_query DUCKDB_AVAILABLE table_name catalog_path with
    | None => ret "DuckDB query generation failed."
    | Some query =>
        let except e := ret ("Error retrieving table schema with DuckDB: " ++ e) in
        match connect duckdb with
        | inl e => except e
        | inr _ =>
            emit EvConnect ;;
            emit (EvExecute ("DESCRIBE " ++ query)) ;;
            match execute_fetchdf duckdb ("DESCRIBE " ++ query) with
            | inl e => except e
            | inr df =>
                emit EvClose ;;
                match to_string duckdb df with
                | inl e => except e
                | inr text => ret text
                end
            end
        end
    end.

(** Step 2 of [main]: the Question Router stub. *)
Definition route (llm_choice : string) (api_key : option string)
           (question : string) (table_names : list pyval)
  : M (string * list string) :=
  if llm_choice =? "openai" then
    (if negb (opt_truthy api_key) then
       print "Error: --api-key is required when using OpenAI." ;;
       sys_exit 1
     else ret tt) ;;
    print ("Calling OpenAI with question: " ++ question) ;;
    print ("Tables in catalog: " ++ py_str (PyList table_names)) ;;
    ret ("I think the relevant tables are customers, orders, and products.",
         related_tables_stub)
  else if llm_choice =? "ollama" then
    print ("Calling Ollama with question: " ++ question) ;;
    print ("Tables in catalog: " ++ py_str (PyList table_names)) ;;
    ret ("Ollama says the relevant tables are:  customers, orders, and products.",
         related_tables_stub)
  else if llm_choice =? "debug" then
    print "Debug mode:  No LLM call." ;;
    ret ("Debug response:  The relevant tables are: customers, orders, and products.",
         related_tables_stub)
  else
    print "Error: Invalid LLM choice.  Should not have gotten here." ;;
    sys_exit 1.

(** The body of the loop over the related tables. *)
Definition report_table (catalog_data : pyval) (data_path table_name : string)
  : M unit :=
  table_info <- lift (get_table_info str_lower catalog_data table_name) ;;
  if truthy table_info then
    print (nl ++ "Table: " ++ table_name) ;;
    description <- lift (get_default table_info "description"
                           (PyStr "No description available.")) ;;
    print ("  Description: " ++ format_value description) ;;
    print "  Columns:" ;;
    columns <- lift (c <- getitem table_info "columns" ;; items c)%res ;;
    for_each columns (fun column =>
      let (column_name, column_info) := column in
      dtype <- lift (getitem column_info "dtype") ;;
      description <- lift (get_default column_info "description"
                             (PyStr "No description.")) ;;
      print ("    " ++ column_name ++ ": " ++ format_value dtype ++ " - "
             ++ format_value description)) ;;
    sample_data <- get_sample_data_duckdb table_name data_path ;;
    (if negb (sample_data =? "") then
       print (nl ++ "  Sample Data (DuckDB):") ;;
       print sample_data
     else ret tt) ;;
    table_schema <- get_table_schema_duckdb table_name data_path ;;
    (if negb (table_schema =? "") then
       print (nl ++ "  Table Schema (DuckDB):") ;;
       print table_schema
     else ret tt)
  else
    print ("Table '" ++ table_name ++ "' not found in catalog.").

(** Step 3 of [main]: the canned query advice. *)
Definition query_advice (llm_choice : string) : M unit :=
  if llm_choice =? "openai" then
    print "Calling OpenAI for query advice..." ;;
    print "Here's a possible query using the tables:  SELECT c.name, o.order_date FROM customers c JOIN orders o ON c.customer_id = o.customer_id"
  else if llm_choice =? "ollama" then
    print "Calling Ollama for query advice..." ;;
    print "Ollama suggests this query: SELECT c.name, o.order_date FROM customers c JOIN orders o ON c.customer_id = o.customer_id"
  else if llm_choice =? "debug" then
    print "Debug:  Try this query: SELECT c.name, o.order_date FROM customers c JOIN orders o ON c.customer_id = o.customer_id"
  else
    print "Should not have gotten here.".

Definition main (a : args) : M unit :=
  let question := String.concat " " (question a) in
  let catalog_path := catalog a in
  let llm_choice := llm a in
  let api_key := api_key a in
  let data_path := data_path a in
  catalog_data <- load_catalog catalog_path ;;
  (if negb (truthy catalog_data) then sys_exit 1 else ret tt) ;;
  table_names <- lift (get_table_names catalog_data) ;;
  routed <- route llm_choice api_key question table_names ;;
  let (llm_response, related_tables) := routed in
  print llm_response ;;
  for_each related_tables (report_table catalog_data data_path) ;;
  query_advice llm_choice ;;
  print (nl ++ "Done.").

End Run.

(** An event that does not touch the engine. *)
Definition is_quiet (e : event) : bool := negb (is_engine_event e).

(** [m] returns [a], and every event of it satisfies [p]. *)
Definition returns_with {A} (p : event -> bool) (m : M A) (a : A) : Prop :=
  exists t, m = (t, Ret a) /\ forallb p t = true.

(* ------------------------------------------------------------------ *)
(** * Concrete catalogs, engines and command lines *)

Module Sample.

Definition column (dtype : string) : pyval :=
  PyDict [("dtype", PyStr dtype)].

Definition customers_node : pyval :=
  PyDict [("name", PyStr "Customers");
          ("resource_type", PyStr "model");
          ("description", PyStr "One row per customer");
          ("columns", PyDict [("id", column "INTEGER");
                              ("name", column "VARCHAR")])].

Definition raw_node : pyval :=
  PyDict [("name", PyStr "raw_orders");
          ("resource_type", PyStr "source");
          ("columns", PyDict [])].

Definition orders_node : pyval :=
  PyDict [("name", PyStr "orders");
          ("resource_type", PyStr "seed");
          ("columns", PyDict [("id", column "INTEGER");
                              ("customer_id", column "INTEGER")])].

Definition nodes : list pyval := [customers_node; raw_node; orders_node].

Definition catalog_doc : pyval :=
  PyDict [("metadata", PyDict []);
          ("nodes", PyDict [("model.shop.customers", customers_node);
                            ("source.shop.raw_orders", raw_node);
                            ("seed.shop.orders", orders_node)])].

(** A non-empty document without a [nodes] key. *)
Definition no_nodes_doc : pyval := PyDict [("metadata", PyDict [])].

(** A node without [resource_type]. *)
Definition untyped_node : pyval := PyDict [("name", PyStr "customers")].
Definition untyped_doc : pyval :=
  PyDict [("nodes", PyDict [("model.shop.customers", untyped_node)])].

(** A node without [name], of a type the tool does not list. *)
Definition unnamed_source : pyval := PyDict [("resource_type", PyStr "source")].
Definition unnamed_source_doc : pyval :=
  PyDict [("nodes", PyDict [("source.shop.raw", unnamed_source)])].

(** A node without [name], of a listed type, after a named one. *)
Definition unnamed_model : pyval := PyDict [("resource_type", PyStr "model")].
Definition unnamed_model_doc : pyval :=
  PyDict [("nodes", PyDict [("model.shop.customers", customers_node);
                            ("model.shop.anon", unnamed_model)])].

(** A node whose [name] is not a string. *)
Definition numbered_node : pyval :=
  PyDict [("name", PyInt 7); ("resource_type", PyStr "model")].
Definition numbered_doc : pyval :=
  PyDict [("nodes", PyDict [("model.shop.seven", numbered_node)])].

(** The falsy documents. *)
Definition falsy_docs : list pyval :=
  [PyDict []; PyList []; PyNone; PyInt 0; PyBool false;
   PyStr ""; PyFloat (S754_zero false)].

(** File systems. *)
Definition fs_with (doc : pyval) (path : string) : read_outcome :=
  if path =? "target/catalog.json" then ReadOk doc
  else if path =? "broken.json" then JSONDecodeError
  else if path =? "/root/secret.json" then
    OtherException "[Errno 13] Permission denied: '/root/secret.json'"
  else FileNotFoundError.

(** Engines; a frame is the list of its rendered rows. *)
Definition rows : Type := list string.

Definition render (r : rows) : string := String.concat nl r.

Definition no_files : string :=
  "IO Error: No files found that match the pattern".

(** The engine in a directory without the table's files: every query
    raises. *)
Definition empty_dir_engine : engine rows :=
  {| connect := inr tt;
     execute_fetchdf := fun _ => inl no_files;
     head_to_string := fun r => inr (render (firstn 5 r));
     to_string := fun r => inr (render r) |}.

(** An engine whose queries succeed. *)
Definition working_engine : engine rows :=
  {| connect := inr tt;
     execute_fetchdf := fun _ => inr ["id name"; "1 ann"; "2 bob"];
     head_to_string := fun r => inr (render (firstn 5 r));
     to_string := fun r => inr (render r) |}.

(** A stand-in for [str] on values that are not strings. *)
Definition py_str (v : pyval) : string :=
  match v with
  | PyNone => "None"
  | PyBool true => "True"
  | PyBool false => "False"
  | PyList [] => "[]"
  | PyDict [] => "{}"
  | _ => "<value>"
  end.

Definition cli (llm_choice : string) (key : option string) : args :=
  {| question := ["who"; "ordered"; "most?"];
     catalog := "target/catalog.json";
     llm := llm_choice;
     api_key := key;
     data_path := "data" |}.

Definition cli_at (path : string) : args :=
  {| question := ["who"; "ordered"; "most?"];
     catalog := path;
     llm := "debug";
     api_key := None;
     data_path := "data" |}.

End Sample.

(** More catalogs, for the properties of whole runs. *)
Module Cases.

(** A catalog that holds none of the router's related tables. *)
Definition inventory_node : pyval :=
  PyDict [("name", PyStr "inventory");
          ("resource_type", PyStr "model");
          ("columns", PyDict [("sku", Sample.column "VARCHAR")])].
Definition inventory_doc : pyval :=
  PyDict [("nodes", PyDict [("model.shop.inventory", inventory_node)])].

(** A catalog without any node. *)
Definition empty_nodes_doc : pyval := PyDict [("nodes", PyDict [])].

(** An [orders] node without [columns]. *)
Definition bare_orders : pyval :=
  PyDict [("name", PyStr "orders"); ("resource_type", PyStr "model")].
Definition bare_orders_doc : pyval :=
  PyDict [("nodes", PyDict [("model.shop.orders", bare_orders)])].

(** A [customers] node whose second column has no [dtype]. *)
Definition half_typed : pyval :=
  PyDict [("name", PyStr "customers");
          ("resource_type", PyStr "model");
          ("columns", PyDict [("id", Sample.column "INTEGER");
                              ("name", PyDict [("description", PyStr "full name")]);
                              ("email", Sample.column "VARCHAR")])].
Definition half_typed_doc : pyval :=
  PyDict [("nodes", PyDict [("model.shop.customers", half_typed)])].

(** A node whose [columns] is a list. *)
Definition listed_columns : pyval :=
  PyDict [("name", PyStr "customers");
          ("resource_type", PyStr "model");
          ("columns", PyList [PyStr "id"])].
Definition listed_columns_doc : pyval :=
  PyDict [("nodes", PyDict [("model.shop.customers", listed_columns)])].

(** An unlisted node without [name], then a node without
    [resource_type]. *)
Definition source_then_untyped_doc : pyval :=
  PyDict [("nodes", PyDict [("source.shop.raw", Sample.unnamed_source);
                            ("model.shop.customers", Sample.untyped_node)])].

(** A node without [resource_type], then a listed node without [name]. *)
Definition untyped_then_unnamed_doc : pyval :=
  PyDict [("nodes", PyDict [("model.shop.customers", Sample.untyped_node);
                            ("model.shop.anon", Sample.unnamed_model)])].

(** An engine whose connection fails. *)
Definition offline_engine : engine Sample.rows :=
  {| connect := inl "IO Error: cannot open database";
     execute_fetchdf := fun _ => inr [];
     head_to_string := fun r => inr (Sample.render (firstn 5 r));
     to_string := fun r => inr (Sample.render r) |}.

End Cases.

(** A node the report can print: a valid node whose [columns] is a
    mapping of mappings that each carry a [dtype]. *)
Definition valid_column (column_info : pyval) : bool :=
  has_key "dtype" column_info.

Definition printable_node (node : pyval) : bool :=
  valid_node node &&
  match node_attr "columns" node with
  | Some (PyDict cols) => forallb valid_column (map snd cols)
  | _ => false
  end.

Definition printable_catalog (doc : pyval) : bool :=
  match catalog_nodes doc with
  | Some nodes => forallb printable_node nodes
  | None => false
  end.

(** A choice of backend that passes the checks of [route]. *)
Definition backend_ready (llm_choice : string) (key : option string) : bool :=
  if llm_choice =? "openai" then opt_truthy key
  else (llm_choice =? "ollama") || (llm_choice =? "debug").

(* ------------------------------------------------------------------ *)
(** * Vocabulary for the properties of whole runs *)

(** The query built for a table when DuckDB is available. *)
Definition sample_query (table_name : string) : string :=
  "SELECT * FROM read_parquet('" ++ table_name ++ "/*.parquet') LIMIT 5".

(** The queries of the three related tables of the router stub: for each
    table the sampling query and its [DESCRIBE]. *)
Definition stub_queries : list string :=
  flat_map (fun t => [sample_query t; "DESCRIBE " ++ sample_query t])
           related_tables_stub.

Definition is_connect (e : event) : bool :=
  match e with EvConnect => true | _ => false end.

(** An event that is not the execution of a query other than the
    stub's. *)
Definition expected_event (e : event) : bool :=
  match e with
  | EvExecute q => existsb (String.eqb q) stub_queries
  | _ => true
  end.

Definition is_execute (e : event) : bool :=
  match e with EvExecute _ => true | _ => false end.

Definition never_exits {A} (m : M A) : bool :=
  match outcome_of m with
  | Exit _ => false
  | _ => true
  end.

(** Every event of [m] satisfies [p], and [m] does not call [sys.exit]. *)
Definition run_ok {A} (p : event -> bool) (m : M A) : Prop :=
  forallb p (trace m) = true /\ never_exits m = true.

(** What [p] must accept for the sampling of a table to satisfy it. *)
Definition accepts_sampling (p : event -> bool) (avail : bool)
           (table_name : string) : Prop :=
  avail = false \/
  (p EvConnect = true /\ p EvClose = true /\
   p (EvExecute (sample_query table_name)) = true /\
   p (EvExecute ("DESCRIBE " ++ sample_query table_name)) = true).

(** The parsed command lines and environments on which [main] calls
    [sys.exit]: the catalog is not loaded or is falsy, or the tables are
    listed and the backend is openai without a key. *)
Definition exits_early (fs : string -> read_outcome) (a : args) : bool :=
  match fs (catalog a) with
  | ReadOk doc =>
      if truthy doc then
        match get_table_names doc with
        | Ok _ => (llm a =? "openai") && negb (opt_truthy (api_key a))
        | Err _ => false
        end
      else true
  | _ => true
  end.

Definition with_data_path (a : args) (path : string) : args :=
  {| question := question a;
     catalog := catalog a;
     llm := llm a;
     api_key := api_key a;
     data_path := path |}.

Definition not_found_line (table_name : string) : string :=
  "Table '" ++ table_name ++ "' not found in catalog.".

(** [node.get('description', 'No description available.')]. *)
Definition description_of (node : pyval) : pyval :=
  match node_attr "description" node with
  | Some v => v
  | None => PyStr "No description available."
  end.

Definition done_line : string := nl ++ "Done.".

(** When [m] returns, the last event of its trace is [e]. *)
Definition ends_with {A} (e : event) (m : M A) : Prop :=
  forall a, outcome_of m = Ret a -> exists t, trace m = (t ++ [e])%list.

(** The line [main] prints for one column of a found table. *)
Definition column_line (py_str : pyval -> string)
           (column : string * pyval) : string :=
  "    " ++ fst column ++ ": "
  ++ format_value py_str
       (match node_attr "dtype" (snd column) with
        | Some v => v
        | None => PyNone
        end)
  ++ " - "
  ++ format_value py_str
       (match node_attr "description" (snd column) with
        | Some v => v
        | None => PyStr "No description."
        end).

(** A titled block of [main]'s report; an empty text prints nothing. *)
Definition section_lines (title text : string) : list event :=
  if negb (text =? "") then [EvPrint title; EvPrint text] else [].

(** The columns of a node, in mapping order. *)
Definition columns_of (node : pyval) : list (string * pyval) :=
  match node_attr "columns" node with
  | Some (PyDict cols) => cols
  | _ => []
  end.

(** The string a sampling call returns. *)
Definition returned_text (m : M string) : string :=
  match outcome_of m with
  | Ret text => text
  | _ => ""
  end.

(** The first three lines of the report on a found table. *)
Definition table_header (py_str : pyval -> string) (table_name : string)
           (node : pyval) : list event :=
  [EvPrint (nl ++ "Table: " ++ table_name);
   EvPrint ("  Description: " ++ format_value py_str (description_of node));
   EvPrint "  Columns:"].

(* ------------------------------------------------------------------ *)
(** * Properties of the Catalog Index *)

Unset Implicit Arguments.

Lemma getitem_node_attr (node : pyval) (k : string) (v : pyval) :
  node_attr k node = Some v -> getitem node k = Ok v.
Proof.
  destruct node; simpl; try discriminate.
  intros H; rewrite H; reflexivity.
Qed.

Lemma getitem_missing (node : pyval) (k : string) :
  is_dict node = true -> has_key k node = false ->
  getitem node k = Err (KeyError k).
Proof.
  unfold has_key.
  destruct node; simpl; try discriminate.
  intros _; destruct (assoc k d); [discriminate | reflexivity].
Qed.

Lemma catalog_nodes_inv (doc : pyval) (nodes : list pyval) :
  catalog_nodes doc = Some nodes ->
  truthy doc = true /\
  (ns <- getitem doc "nodes" ;; values ns)%res = Ok nodes.
Proof.
  destruct doc as [| | | | | |d]; simpl; try discriminate.
  destruct d as [|entry d]; [discriminate|].
  destruct (assoc "nodes" (entry :: d)) as [ns|]; [|discriminate].
  destruct ns; try discriminate.
  intros H; injection H as <-; split; reflexivity.
Qed.

Lemma valid_node_inv (node : pyval) :
  valid_node node = true ->
  exists s rt, node_attr "name" node = Some (PyStr s) /\
               node_attr "resource_type" node = Some rt.
Proof.
  unfold valid_node.
  destruct (node_attr "name" node) as [[| | | |s| |]|]; try discriminate.
  destruct (node_attr "resource_type" node) as [rt|]; [|discriminate].
  intros _; exists s, rt; split; reflexivity.
Qed.

Lemma is_queryable_attr (node rt : pyval) :
  node_attr "resource_type" node = Some rt ->
  in_str_tuple rt queryable_types = is_queryable node.
Proof.
  unfold is_queryable; intros ->; destruct rt; reflexivity.
Qed.

Lemma node_attr_is_dict (node : pyval) (k : string) (v : pyval) :
  node_attr k node = Some v -> is_dict node = true.
Proof. destruct node; simpl; congruence. Qed.

(** The accumulating loop computes a filter followed by a map. *)
Lemma get_table_names_loop_valid (nodes : list pyval) :
  forallb valid_node nodes = true ->
  forall acc,
    get_table_names_loop nodes acc =
    Ok (acc ++ map node_name (filter is_queryable nodes))%list.
Proof.
  induction nodes as [|node rest IH]; intros Hv acc; simpl.
  - rewrite app_nil_r; reflexivity.
  - simpl in Hv; apply andb_prop in Hv as [Hn Hrest].
    destruct (valid_node_inv _ Hn) as (s & rt & Hname & Hrt).
    rewrite (getitem_node_attr _ _ _ Hrt); simpl.
    rewrite (is_queryable_attr _ _ Hrt).
    destruct (is_queryable node).
    + rewrite (getitem_node_attr _ _ _ Hname); simpl.
      rewrite (IH Hrest), <- app_assoc.
      unfold node_name at 2; rewrite Hname; reflexivity.
    + apply IH, Hrest.
Qed.

(** The loop stops with [KeyError] at the first node that lacks a key it
    reads. *)
Lemma get_table_names_loop_raises (before after : list pyval) (node : pyval)
      (k : string) :
  forallb valid_node before = true ->
  is_dict node = true ->
  (has_key "resource_type" node = false /\ k = "resource_type") \/
  (is_queryable node = true /\ has_key "name" node = false /\ k = "name") ->
  forall acc,
    get_table_names_loop (before ++ node :: after) acc = Err (KeyError k).
Proof.
  intros Hv Hd Hk.
  induction before as [|b before IH]; intros acc; simpl.
  - destruct Hk as [[Hrt ->]|(Hq & Hname & ->)].
    + rewrite (getitem_missing _ _ Hd Hrt); reflexivity.
    + destruct (node_attr "resource_type" node) as [rt|] eqn:Hrt;
        [|unfold is_queryable in Hq; rewrite Hrt in Hq; discriminate].
      rewrite (getitem_node_attr _ _ _ Hrt); simpl.
      rewrite (is_queryable_attr _ _ Hrt), Hq.
      rewrite (getitem_missing _ _ Hd Hname); reflexivity.
  - simpl in Hv; apply andb_prop in Hv as [Hb Hrest].
    destruct (valid_node_inv _ Hb) as (s & rt & Hname & Hrt).
    rewrite (getitem_node_attr _ _ _ Hrt); simpl.
    destruct (in_str_tuple rt queryable_types).
    + rewrite (getitem_node_attr _ _ _ Hname); simpl; apply IH, Hrest.
    + apply IH, Hrest.
Qed.

Lemma get_table_names_loop_listable (nodes : list pyval) :
  forallb listable_node nodes = true ->
  forall acc, exists l, get_table_names_loop nodes acc = Ok l.
Proof.
  induction nodes as [|node rest IH]; intros Hv acc; simpl.
  - eexists; reflexivity.
  - simpl in Hv; apply andb_prop in Hv as [Hn Hrest].
    unfold listable_node, has_key in Hn.
    destruct (node_attr "resource_type" node) as [rt|] eqn:Hrt; [|discriminate].
    rewrite (getitem_node_attr _ _ _ Hrt); simpl.
    rewrite (is_queryable_attr _ _ Hrt).
    destruct (is_queryable node); simpl in Hn.
    + destruct (node_attr "name" node) as [nm|] eqn:Hname; [|discriminate].
      rewrite (getitem_node_attr _ _ _ Hname); simpl; apply IH, Hrest.
    + apply IH, Hrest.
Qed.

Lemma valid_node_named (node : pyval) :
  valid_node node = true -> named_node node = true.
Proof.
  intros H; destruct (valid_node_inv _ H) as (s & rt & Hname & _).
  unfold named_node; rewrite Hname; reflexivity.
Qed.

Lemma forallb_valid_named (nodes : list pyval) :
  forallb valid_node nodes = true -> forallb named_node nodes = true.
Proof.
  rewrite !forallb_forall; intros H n Hn; apply valid_node_named, H, Hn.
Qed.

Lemma forallb_valid_listable (nodes : list pyval) :
  forallb valid_node nodes = true -> forallb listable_node nodes = true.
Proof.
  rewrite !forallb_forall; intros H n Hn.
  destruct (valid_node_inv _ (H n Hn)) as (s & rt & Hname & Hrt).
  unfold listable_node, has_key; rewrite Hname, Hrt.
  apply orb_true_r.
Qed.

Lemma node_name_str (node : pyval) (s : string) :
  node_name node = PyStr s -> node_attr "name" node = Some (PyStr s).
Proof.
  unfold node_name.
  destruct (node_attr "name" node); [intros ->; reflexivity | discriminate].
Qed.

Section CatalogIndexFacts.

Variable str_lower : string -> string.

Lemma name_matches_inv (q : string) (node : pyval) :
  name_matches str_lower q node = true ->
  exists s, node_attr "name" node = Some (PyStr s) /\
            (str_lower s =? str_lower q) = true.
Proof.
  unfold name_matches.
  destruct (node_name node) eqn:Hn; try discriminate.
  intros H; exists s; split; [apply node_name_str, Hn | exact H].
Qed.

Lemma get_table_info_loop_hit (q : string) (node : pyval) (after : list pyval) :
  name_matches str_lower q node = true ->
  get_table_info_loop str_lower (node :: after) q = Ok node.
Proof.
  intros H; destruct (name_matches_inv _ _ H) as (s & Hname & Heq).
  simpl; rewrite (getitem_node_attr _ _ _ Hname); simpl.
  rewrite Heq; reflexivity.
Qed.

Lemma get_table_info_loop_skip (q : string) (before rest : list pyval) :
  forallb named_node before = true ->
  (forall n, In n before -> name_matches str_lower q n = false) ->
  get_table_info_loop str_lower (before ++ rest) q =
  get_table_info_loop str_lower rest q.
Proof.
  induction before as [|b before IH]; intros Hv Hno; [reflexivity|].
  simpl in Hv; apply andb_prop in Hv as [Hb Hrest].
  assert (Hm := Hno b (or_introl eq_refl)).
  unfold named_node in Hb; unfold name_matches, node_name in Hm.
  destruct (node_attr "name" b) as [[| | | |s| |]|] eqn:Hname; try discriminate.
  simpl; rewrite (getitem_node_attr _ _ _ Hname); simpl.
  rewrite Hm; apply IH; [exact Hrest|].
  intros n Hn; apply Hno; right; exact Hn.
Qed.

Lemma get_table_info_loop_named (q : string) (nodes : list pyval) :
  forallb named_node nodes = true ->
  get_table_info_loop str_lower nodes q = Ok (first_match str_lower nodes q).
Proof.
  unfold first_match.
  induction nodes as [|node rest IH]; intros Hv; [reflexivity|].
  simpl in Hv; apply andb_prop in Hv as [Hn Hrest].
  simpl find.
  destruct (name_matches str_lower q node) eqn:Hm.
  - apply get_table_info_loop_hit, Hm.
  - rewrite <- (IH Hrest).
    apply (get_table_info_loop_skip q [node] rest).
    + simpl; rewrite Hn; reflexivity.
    + intros n [<-|[]]; exact Hm.
Qed.

Lemma first_match_none (q : string) (nodes : list pyval) :
  (forall n, In n nodes -> name_matches str_lower q n = false) ->
  first_match str_lower nodes q = PyNone.
Proof.
  unfold first_match; intros Hno.
  destruct (find (name_matches str_lower q) nodes) as [n|] eqn:Hf; [|reflexivity].
  apply find_some in Hf as [Hin Hm].
  rewrite (Hno n Hin) in Hm; discriminate.
Qed.

Lemma first_match_cases (q : string) (nodes : list pyval) :
  first_match str_lower nodes q = PyNone \/
  (In (first_match str_lower nodes q) nodes /\
   name_matches str_lower q (first_match str_lower nodes q) = true).
Proof.
  unfold first_match.
  destruct (find (name_matches str_lower q) nodes) as [n|] eqn:Hf.
  - right; apply find_some in Hf; exact Hf.
  - left; reflexivity.
Qed.

Lemma get_table_info_loop_missing_name (q : string) (node : pyval)
      (after : list pyval) :
  is_dict node = true -> has_key "name" node = false ->
  get_table_info_loop str_lower (node :: after) q = Err (KeyError "name").
Proof.
  intros Hd Hk; simpl; rewrite (getitem_missing _ _ Hd Hk); reflexivity.
Qed.

(** The query enters the scan only through [str_lower]. *)
Lemma get_table_info_loop_case (q q' : string) (nodes : list pyval) :
  str_lower q = str_lower q' ->
  get_table_info_loop str_lower nodes q = get_table_info_loop str_lower nodes q'.
Proof.
  intros Hq; induction nodes as [|node rest IH]; [reflexivity|].
  simpl; rewrite Hq, IH; reflexivity.
Qed.

Lemma get_table_info_nodes (doc : pyval) (nodes : list pyval) (q : string) :
  catalog_nodes doc = Some nodes ->
  get_table_info str_lower doc q = get_table_info_loop str_lower nodes q.
Proof.
  intros H; destruct (catalog_nodes_inv _ _ H) as [Ht Hn].
  unfold get_table_info; rewrite Ht; simpl.
  unfold res_bind in *.
  destruct (getitem doc "nodes"); [|discriminate].
  rewrite Hn; reflexivity.
Qed.

End CatalogIndexFacts.

Lemma get_table_names_nodes (doc : pyval) (nodes : list pyval) :
  catalog_nodes doc = Some nodes ->
  get_table_names doc = get_table_names_loop nodes [].
Proof.
  intros H; destruct (catalog_nodes_inv _ _ H) as [Ht Hn].
  unfold get_table_names; rewrite Ht; simpl.
  unfold res_bind in *.
  destruct (getitem doc "nodes"); [|discriminate].
  rewrite Hn; reflexivity.
Qed.

Lemma getitem_nodes_missing (d : list (string * pyval)) :
  assoc "nodes" d = None -> getitem (PyDict d) "nodes" = Err (KeyError "nodes").
Proof. simpl; intros ->; reflexivity. Qed.

(* ------------------------------------------------------------------ *)
(** * The claims about the Sample Query Generator and the Catalog Index *)

(** C1.  [generate_duckdb_query] returns [None] when DuckDB is not
    available and otherwise exactly the query
    [SELECT * FROM read_parquet('<table_name>/*.parquet') LIMIT 5]; its
    second argument, the data directory, is never used: two data paths give
    the same query, and the two sampling operations, which receive the data
    path from [main], behave the same for any two of them. *)
Theorem generate_duckdb_query_spec :
  forall (table_name data_path data_path' : string),
    generate_duckdb_query false table_name data_path = None /\
    generate_duckdb_query true table_name data_path =
      Some ("SELECT * FROM read_parquet('" ++ table_name ++ "/*.parquet') LIMIT 5") /\
    (forall avail,
        generate_duckdb_query avail table_name data_path =
        generate_duckdb_query avail table_name data_path') /\
    (forall avail (frame : Type) (duckdb : engine frame),
        get_sample_data_duckdb avail duckdb table_name data_path =
        get_sample_data_duckdb avail duckdb table_name data_path' /\
        get_table_schema_duckdb avail duckdb table_name data_path =
        get_table_schema_duckdb avail duckdb table_name data_path').
Proof.
  intros table_name data_path data_path'.
  repeat split; reflexivity.
Qed.

(** C2.  On a catalog in the expected format, [get_table_names] returns
    the names of the nodes whose [resource_type] is one of model, seed,
    snapshot, table, view, in mapping order, and nothing else: a value is in
    the result exactly when it is the name of such a node.  On an absent
    ([None]) or otherwise falsy catalog it returns the empty list. *)
Theorem get_table_names_spec :
  forall (doc : pyval) (nodes : list pyval),
    (truthy doc = false -> get_table_names doc = Ok []) /\
    (catalog_nodes doc = Some nodes ->
     forallb valid_node nodes = true ->
     get_table_names doc = Ok (map node_name (filter is_queryable nodes)) /\
     forall x, In x (map node_name (filter is_queryable nodes)) <->
               exists node, In node nodes /\ is_queryable node = true /\
                            node_name node = x).
Proof.
  intros doc nodes; split.
  - intros Hf; unfold get_table_names; rewrite Hf; reflexivity.
  - intros Hn Hv; split.
    + rewrite (get_table_names_nodes _ _ Hn).
      apply (get_table_names_loop_valid _ Hv).
    + intros x; rewrite in_map_iff; split.
      * intros (node & Hx & Hin); apply filter_In in Hin as [Hin Hq].
        exists node; auto.
      * intros (node & Hin & Hq & Hx); exists node; split; [exact Hx|].
        apply filter_In; auto.
Qed.

(** C3.  [get_table_info] matches the query against each node's [name]
    up to case and returns the first match in mapping order.  It returns
    [None] without raising on a falsy (empty or absent) catalog and, on a
    catalog in the expected format, when no node matches.  Queries equal up
    to case get the same answer; with a node named [Customers] as the first
    match, [customers], [CUSTOMERS] and [Customers] all return that node. *)
Theorem get_table_info_spec :
  forall (str_lower : string -> string),
    (forall doc q, truthy doc = false ->
                   get_table_info str_lower doc q = Ok PyNone) /\
    (forall doc nodes q,
        catalog_nodes doc = Some nodes ->
        forallb valid_node nodes = true ->
        get_table_info str_lower doc q = Ok (first_match str_lower nodes q) /\
        ((forall n, In n nodes -> name_matches str_lower q n = false) ->
         get_table_info str_lower doc q = Ok PyNone)) /\
    (forall doc before node after q,
        catalog_nodes doc = Some (before ++ node :: after)%list ->
        forallb valid_node before = true ->
        (forall n, In n before -> name_matches str_lower q n = false) ->
        name_matches str_lower q node = true ->
        get_table_info str_lower doc q = Ok node) /\
    (forall doc q q', str_lower q = str_lower q' ->
                      get_table_info str_lower doc q =
                      get_table_info str_lower doc q') /\
    (forall doc before node after,
        catalog_nodes doc = Some (before ++ node :: after)%list ->
        forallb valid_node before = true ->
        (forall n, In n before -> name_matches lower_ascii "Customers" n = false) ->
        node_name node = PyStr "Customers" ->
        get_table_info lower_ascii doc "customers" = Ok node /\
        get_table_info lower_ascii doc "CUSTOMERS" = Ok node /\
        get_table_info lower_ascii doc "Customers" = Ok node).
Proof.
  intros str_lower.
  assert (Hfirst : forall lw doc before node after q,
             catalog_nodes doc = Some (before ++ node :: after)%list ->
             forallb valid_node before = true ->
             (forall n, In n before -> name_matches lw q n = false) ->
             name_matches lw q node = true ->
             get_table_info lw doc q = Ok node).
  { intros lw doc before node after q Hn Hv Hno Hm.
    rewrite (get_table_info_nodes lw _ _ q Hn).
    rewrite (get_table_info_loop_skip lw q before (node :: after)
               (forallb_valid_named _ Hv) Hno).
    apply get_table_info_loop_hit, Hm. }
  assert (Hcase : forall lw doc q q', lw q = lw q' ->
                    get_table_info lw doc q = get_table_info lw doc q').
  { intros lw doc q q' Hq; unfold get_table_info.
    destruct (negb (truthy doc)); [reflexivity|].
    destruct (getitem doc "nodes") as [ns|e]; [simpl|reflexivity].
    destruct (values ns) as [vs|e]; [simpl|reflexivity].
    apply get_table_info_loop_case, Hq. }
  split; [|split; [|split; [|split]]].
  - intros doc q Hf; unfold get_table_info; rewrite Hf; reflexivity.
  - intros doc nodes q Hn Hv.
    assert (Heq : get_table_info str_lower doc q = Ok (first_match str_lower nodes q)).
    { rewrite (get_table_info_nodes str_lower _ _ q Hn).
      apply get_table_info_loop_named, forallb_valid_named, Hv. }
    split; [exact Heq|].
    intros Hno; rewrite Heq, (first_match_none str_lower q nodes Hno); reflexivity.
  - apply Hfirst.
  - apply Hcase.
  - intros doc before node after Hn Hv Hno Hname.
    assert (Hm : name_matches lower_ascii "Customers" node = true).
    { unfold name_matches; rewrite Hname; reflexivity. }
    assert (H := Hfirst lower_ascii doc before node after "Customers" Hn Hv Hno Hm).
    repeat split.
    + rewrite <- H; apply Hcase; reflexivity.
    + rewrite <- H; apply Hcase; reflexivity.
    + exact H.
Qed.

Lemma getitem_ok_inv (v : pyval) (k : string) (x : pyval) :
  getitem v k = Ok x -> node_attr k v = Some x.
Proof.
  destruct v; simpl; try discriminate.
  destruct (assoc k d); [intros H; injection H as ->; reflexivity | discriminate].
Qed.

Lemma getitem_err_inv (v : pyval) (k : string) (e : exn) :
  getitem v k = Err e ->
  (is_dict v = false /\ e = TypeError) \/
  (is_dict v = true /\ has_key k v = false /\ e = KeyError k).
Proof.
  unfold has_key; destruct v; simpl;
    try (intros H; injection H as <-; left; split; reflexivity).
  destruct (assoc k d); [discriminate|].
  intros H; injection H as <-; right; repeat split.
Qed.

Lemma get_table_names_loop_skip (before rest : list pyval) :
  forallb listable_node before = true ->
  forall acc,
    get_table_names_loop (before ++ rest) acc =
    get_table_names_loop rest
      (acc ++ map node_name (filter is_queryable before))%list.
Proof.
  induction before as [|b before IH]; intros Hv acc; simpl.
  - rewrite app_nil_r; reflexivity.
  - simpl in Hv; apply andb_prop in Hv as [Hb Hrest].
    unfold listable_node, has_key in Hb.
    destruct (node_attr "resource_type" b) as [rt|] eqn:Hrt; [|discriminate].
    rewrite (getitem_node_attr _ _ _ Hrt); simpl.
    rewrite (is_queryable_attr _ _ Hrt).
    destruct (is_queryable b); simpl in Hb.
    + destruct (node_attr "name" b) as [nm|] eqn:Hname; [|discriminate].
      rewrite (getitem_node_attr _ _ _ Hname); simpl.
      rewrite (IH Hrest), <- app_assoc; simpl.
      unfold node_name at 2; rewrite Hname; reflexivity.
    + apply IH, Hrest.
Qed.

(** Where a raising scan of [get_table_names] stopped. *)
Lemma get_table_names_loop_err_inv (nodes : list pyval) :
  forall acc e,
    get_table_names_loop nodes acc = Err e ->
    exists before node after,
      nodes = (before ++ node :: after)%list /\
      forallb listable_node before = true /\
      (getitem node "resource_type" = Err e \/
       (is_queryable node = true /\ getitem node "name" = Err e)).
Proof.
  induction nodes as [|node rest IH]; intros acc e; simpl; [discriminate|].
  destruct (getitem node "resource_type") as [rt|e'] eqn:Hg; simpl.
  - assert (Hrt := getitem_ok_inv _ _ _ Hg).
    rewrite (is_queryable_attr _ _ Hrt).
    destruct (is_queryable node) eqn:Hq.
    + destruct (getitem node "name") as [name|e''] eqn:Hn; simpl.
      * intros H; destruct (IH _ _ H) as (before & x & after & -> & Hall & Hx).
        exists (node :: before), x, after; repeat split; [|exact Hx].
        simpl; unfold listable_node at 1, has_key.
        rewrite Hrt, Hq, (getitem_ok_inv _ _ _ Hn); exact Hall.
      * intros H; injection H as <-.
        exists [], node, rest; repeat split; right; split; [exact Hq | exact Hn].
    + intros H; destruct (IH _ _ H) as (before & x & after & -> & Hall & Hx).
      exists (node :: before), x, after; repeat split; [|exact Hx].
      simpl; unfold listable_node at 1, has_key; rewrite Hrt, Hq; exact Hall.
  - intros H; injection H as <-.
    exists [], node, rest; repeat split; left; exact Hg.
Qed.

(** Where a raising scan of [get_table_info] stopped. *)
Lemma get_table_info_loop_err_inv (str_lower : string -> string) (q : string)
      (nodes : list pyval) (e : exn) :
  get_table_info_loop str_lower nodes q = Err e ->
  exists before node after,
    nodes = (before ++ node :: after)%list /\
    forallb named_node before = true /\
    (forall n, In n before -> name_matches str_lower q n = false) /\
    (getitem node "name" = Err e \/
     exists name, getitem node "name" = Ok name /\ lower str_lower name = Err e).
Proof.
  induction nodes as [|node rest IH]; simpl; [discriminate|].
  destruct (getitem node "name") as [name|e'] eqn:Hg; simpl.
  - destruct (lower str_lower name) as [lname|e''] eqn:Hl; simpl.
    + destruct name; simpl in Hl; try discriminate.
      injection Hl as <-.
      assert (Hattr := getitem_ok_inv _ _ _ Hg).
      destruct (str_lower s =? str_lower q) eqn:Heq; [discriminate|].
      intros H; destruct (IH H) as (before & x & after & -> & Hall & Hno & Hx).
      exists (node :: before), x, after; repeat split; [| |exact Hx].
      * simpl; unfold named_node at 1; rewrite Hattr; exact Hall.
      * intros n [<-|Hn]; [|apply Hno, Hn].
        unfold name_matches, node_name; rewrite Hattr; exact Heq.
    + intros H; injection H as <-.
      exists [], node, rest; repeat split; [intros n []|].
      right; exists name; split; [exact Hg | exact Hl].
  - intros H; injection H as <-.
    exists [], node, rest; repeat split; [intros n []|]; left; exact Hg.
Qed.

(** C10.  What makes the two lookups raise.  Both return on a falsy
    document and on a catalog in the expected format; [get_table_info]
    only needs every node to carry a string [name], [get_table_names] only
    needs [resource_type] everywhere and [name] on the nodes it lists.  On a
    non-empty mapping without [nodes] both raise [KeyError].  On a document
    with a [nodes] mapping, [get_table_names] raises [KeyError] exactly when
    the first node it cannot list is a mapping that lacks [resource_type],
    or that has a listed type and lacks [name]; [get_table_info] raises
    [KeyError] exactly when a mapping lacking [name] comes after named
    nodes that do not match the query, and returns the first match
    whatever follows it. *)
Theorem catalog_index_raises :
  forall (str_lower : string -> string),
    (forall doc q, truthy doc = false ->
        get_table_info str_lower doc q = Ok PyNone /\
        get_table_names doc = Ok []) /\
    (forall doc q, valid_catalog doc = true ->
        (exists v, get_table_info str_lower doc q = Ok v) /\
        (exists l, get_table_names doc = Ok l)) /\
    (forall doc nodes q,
        catalog_nodes doc = Some nodes ->
        forallb named_node nodes = true ->
        exists v, get_table_info str_lower doc q = Ok v) /\
    (forall doc nodes,
        catalog_nodes doc = Some nodes ->
        forallb listable_node nodes = true ->
        exists l, get_table_names doc = Ok l) /\
    (forall d q,
        truthy (PyDict d) = true -> assoc "nodes" d = None ->
        get_table_info str_lower (PyDict d) q = Err (KeyError "nodes") /\
        get_table_names (PyDict d) = Err (KeyError "nodes")) /\
    (forall doc nodes k,
        catalog_nodes doc = Some nodes ->
        (get_table_names doc = Err (KeyError k) <->
         exists before node after,
           nodes = (before ++ node :: after)%list /\
           forallb listable_node before = true /\
           is_dict node = true /\
           ((k = "resource_type" /\ has_key "resource_type" node = false) \/
            (k = "name" /\ is_queryable node = true /\
             has_key "name" node = false)))) /\
    (forall doc nodes q k,
        catalog_nodes doc = Some nodes ->
        (get_table_info str_lower doc q = Err (KeyError k) <->
         k = "name" /\
         exists before node after,
           nodes = (before ++ node :: after)%list /\
           forallb named_node before = true /\
           (forall n, In n before -> name_matches str_lower q n = false) /\
           is_dict node = true /\
           has_key "name" node = false)) /\
    (forall doc before node after q,
        catalog_nodes doc = Some (before ++ node :: after)%list ->
        forallb named_node before = true ->
        (forall n, In n before -> name_matches str_lower q n = false) ->
        name_matches str_lower q node = true ->
        get_table_info str_lower doc q = Ok node).
Proof.
  intros str_lower.
  assert (Hinfo : forall doc nodes q,
             catalog_nodes doc = Some nodes ->
             forallb named_node nodes = true ->
             exists v, get_table_info str_lower doc q = Ok v).
  { intros doc nodes q Hn Hv; eexists.
    rewrite (get_table_info_nodes str_lower _ _ q Hn).
    apply get_table_info_loop_named, Hv. }
  assert (Hnames : forall doc nodes,
             catalog_nodes doc = Some nodes ->
             forallb listable_node nodes = true ->
             exists l, get_table_names doc = Ok l).
  { intros doc nodes Hn Hv.
    rewrite (get_table_names_nodes _ _ Hn).
    apply get_table_names_loop_listable, Hv. }
  repeat match goal with |- _ /\ _ => split end.
  - intros doc q Hf; unfold get_table_info, get_table_names.
    rewrite Hf; split; reflexivity.
  - intros doc q; unfold valid_catalog.
    destruct (catalog_nodes doc) as [nodes|] eqn:Hn; [|discriminate].
    intros Hv; split.
    + apply (Hinfo doc nodes q Hn), forallb_valid_named, Hv.
    + apply (Hnames doc nodes Hn), forallb_valid_listable, Hv.
  - exact Hinfo.
  - exact Hnames.
  - intros d q Ht Hno; unfold get_table_info, get_table_names.
    rewrite Ht, (getitem_nodes_missing _ Hno); split; reflexivity.
  - intros doc nodes k Hn; rewrite (get_table_names_nodes _ _ Hn); split.
    + intros H.
      destruct (get_table_names_loop_err_inv _ _ _ H)
        as (before & node & after & -> & Hall & [Hg|[Hq Hg]]);
        exists before, node, after;
        destruct (getitem_err_inv _ _ _ Hg) as [[_ He]|(Hd & Hk & He)];
        try discriminate; injection He as ->; repeat split; auto.
    + intros (before & node & after & -> & Hall & Hd & Hk).
      rewrite (get_table_names_loop_skip before (node :: after) Hall).
      apply (get_table_names_loop_raises [] after node k eq_refl Hd).
      destruct Hk as [[-> Hk]|(-> & Hq & Hk)]; auto.
  - intros doc nodes q k Hn; rewrite (get_table_info_nodes str_lower _ _ q Hn).
    split.
    + intros H.
      destruct (get_table_info_loop_err_inv _ _ _ _ H)
        as (before & node & after & -> & Hall & Hno & [Hg|(name & _ & Hl)]).
      * destruct (getitem_err_inv _ _ _ Hg) as [[_ He]|(Hd & Hk & He)];
          [discriminate|].
        injection He as ->; split; [reflexivity|].
        exists before, node, after; auto.
      * destruct name; discriminate.
    + intros (-> & before & node & after & -> & Hall & Hno & Hd & Hk).
      rewrite (get_table_info_loop_skip str_lower q before (node :: after) Hall Hno).
      apply get_table_info_loop_missing_name; assumption.
  - intros doc before node after q Hn Hall Hno Hm.
    rewrite (get_table_info_nodes str_lower _ _ q Hn).
    rewrite (get_table_info_loop_skip str_lower q before (node :: after) Hall Hno).
    apply get_table_info_loop_hit, Hm.
Qed.

(* ------------------------------------------------------------------ *)
(** * Properties of runs *)

Lemma bind_ret_l {A B} (a : A) (k : A -> M B) : bind (ret a) k = k a.
Proof. unfold bind, ret; simpl; destruct (k a); reflexivity. Qed.

Lemma bind_emit {B} (e : event) (k : unit -> M B) :
  bind (emit e) k = (e :: trace (k tt), outcome_of (k tt)).
Proof. unfold bind, emit; simpl; destruct (k tt); reflexivity. Qed.

Lemma bind_returns {A B} (m : M A) (k : A -> M B) (t : list event) (a : A) :
  m = (t, Ret a) ->
  bind m k = ((t ++ trace (k a))%list, outcome_of (k a)).
Proof. intros ->; unfold bind; destruct (k a); reflexivity. Qed.

(** A loop whose body always returns, printing only, does the same. *)
Lemma for_each_returns {A} (l : list A) (body : A -> M unit) (p : event -> bool) :
  (forall x, In x l ->
     exists t, body x = (t, Ret tt) /\ forallb p t = true) ->
  exists t, for_each l body = (t, Ret tt) /\ forallb p t = true.
Proof.
  induction l as [|x rest IH]; intros Hbody; simpl.
  - exists []; split; reflexivity.
  - destruct (Hbody x (or_introl eq_refl)) as (t1 & Hx & Hp1).
    destruct IH as (t2 & Hrest & Hp2).
    { intros y Hy; apply Hbody; right; exact Hy. }
    exists (t1 ++ t2)%list; split.
    + rewrite (bind_returns _ _ _ _ Hx), Hrest; reflexivity.
    + rewrite forallb_app, Hp1, Hp2; reflexivity.
Qed.

Section RunFacts.

Variable str_lower : string -> string.
Variable py_str : pyval -> string.
Variable frame : Type.
Variable duckdb : engine frame.

(** Without DuckDB the two sampling operations return the fixed message
    and do nothing else. *)
Lemma sampling_unavailable (table_name path : string) :
  get_sample_data_duckdb false duckdb table_name path = ([], Ret not_available) /\
  get_table_schema_duckdb false duckdb table_name path = ([], Ret not_available).
Proof. split; reflexivity. Qed.

(** The sampling operations always return a string: every exception of
    the engine is caught. *)
Lemma sampling_returns (avail : bool) (table_name path : string) :
  (exists t s, get_sample_data_duckdb avail duckdb table_name path = (t, Ret s)) /\
  (exists t s, get_table_schema_duckdb avail duckdb table_name path = (t, Ret s)).
Proof.
  unfold get_sample_data_duckdb, get_table_schema_duckdb, generate_duckdb_query.
  destruct avail; simpl; [|split; eexists; eexists; reflexivity].
  destruct (connect duckdb) as [e|[]]; [split; eexists; eexists; reflexivity|].
  split.
  - destruct (execute_fetchdf duckdb _) as [e|df]; [eexists; eexists; reflexivity|].
    destruct (head_to_string duckdb df); eexists; eexists; reflexivity.
  - destruct (execute_fetchdf duckdb _) as [e|df]; [eexists; eexists; reflexivity|].
    destruct (to_string duckdb df); eexists; eexists; reflexivity.
Qed.

(** The session of a sampling call whose query fails, and of one whose
    query succeeds. *)
Lemma sample_data_session (table_name path query : string) :
  generate_duckdb_query true table_name path = Some query ->
  connect duckdb = inr tt ->
  (forall e, execute_fetchdf duckdb query = inl e ->
     get_sample_data_duckdb true duckdb table_name path =
     ([EvConnect; EvExecute query],
      Ret ("Error retrieving sample data with DuckDB: " ++ e))) /\
  (forall df, execute_fetchdf duckdb query = inr df ->
     trace (get_sample_data_duckdb true duckdb table_name path) =
     [EvConnect; EvExecute query; EvClose]).
Proof.
  unfold get_sample_data_duckdb; intros -> Hc; rewrite Hc; simpl.
  split.
  - intros e He; rewrite He; reflexivity.
  - intros df Hdf; rewrite Hdf; simpl.
    destruct (head_to_string duckdb df); reflexivity.
Qed.

Lemma table_schema_session (table_name path query : string) :
  generate_duckdb_query true table_name path = Some query ->
  connect duckdb = inr tt ->
  (forall e, execute_fetchdf duckdb ("DESCRIBE " ++ query) = inl e ->
     get_table_schema_duckdb true duckdb table_name path =
     ([EvConnect; EvExecute ("DESCRIBE " ++ query)],
      Ret ("Error retrieving table schema with DuckDB: " ++ e))) /\
  (forall df, execute_fetchdf duckdb ("DESCRIBE " ++ query) = inr df ->
     trace (get_table_schema_duckdb true duckdb table_name path) =
     [EvConnect; EvExecute ("DESCRIBE " ++ query); EvClose]).
Proof.
  unfold get_table_schema_duckdb; intros -> Hc; rewrite Hc; simpl.
  split.
  - intros e He; rewrite He; reflexivity.
  - intros df Hdf; rewrite Hdf; simpl.
    destruct (to_string duckdb df); reflexivity.
Qed.

Variable avail : bool.
Variable fs : string -> read_outcome.

Local Abbreviation run := (main str_lower py_str avail duckdb fs).

Lemma load_catalog_ok (path : string) (doc : pyval) :
  fs path = ReadOk doc -> load_catalog fs path = ([EvOpen path], Ret doc).
Proof. intros H; unfold load_catalog; rewrite H; reflexivity. Qed.

Lemma load_catalog_failed (path : string) :
  read_failed (fs path) = true ->
  exists msg, load_catalog fs path = ([EvOpen path; EvPrint msg], Ret PyNone).
Proof.
  unfold load_catalog; destruct (fs path); try discriminate; intros _;
    eexists; reflexivity.
Qed.

Lemma main_not_loaded (a : args) (t : list event) (doc : pyval) :
  load_catalog fs (catalog a) = (t, Ret doc) ->
  truthy doc = false ->
  run a = (t, Exit 1%Z).
Proof.
  intros Hl Hf; unfold main; cbv zeta.
  rewrite (bind_returns _ _ _ _ Hl), Hf; simpl.
  rewrite app_nil_r; reflexivity.
Qed.

(** Once the catalog is loaded and its tables are listed, [main] is the
    router followed by the report. *)
Lemma main_loaded (a : args) (doc : pyval) (names : list pyval) :
  fs (catalog a) = ReadOk doc ->
  truthy doc = true ->
  get_table_names doc = Ok names ->
  run a =
  bind (emit (EvOpen (catalog a))) (fun _ =>
  bind (route py_str (llm a) (api_key a) (String.concat " " (question a)) names)
       (fun routed =>
          let (llm_response, related_tables) := routed in
          bind (print llm_response) (fun _ =>
          bind (for_each related_tables
                  (report_table str_lower py_str avail duckdb doc (data_path a)))
               (fun _ =>
          bind (query_advice (llm a)) (fun _ => print (nl ++ "Done.")))))).
Proof.
  intros Hfs Ht Hn; unfold main; cbv zeta.
  rewrite (bind_returns _ _ _ _ (load_catalog_ok _ _ Hfs)), Ht; simpl negb; cbv iota.
  rewrite bind_ret_l, Hn; unfold lift; rewrite bind_ret_l.
  rewrite bind_emit; reflexivity.
Qed.

End RunFacts.

(* ------------------------------------------------------------------ *)
(** * Runs that return *)

Lemma returns_ret {A} (p : event -> bool) (a : A) : returns_with p (ret a) a.
Proof. exists []; split; reflexivity. Qed.

Lemma returns_print (line : string) : returns_with is_quiet (print line) tt.
Proof. exists [EvPrint line]; split; reflexivity. Qed.

Lemma returns_lift {A} (p : event -> bool) (r : res A) (a : A) :
  r = Ok a -> returns_with p (lift r) a.
Proof. intros ->; apply returns_ret. Qed.

Lemma returns_bind {A B} (p : event -> bool) (m : M A) (k : A -> M B)
      (a : A) (b : B) :
  returns_with p m a -> returns_with p (k a) b -> returns_with p (bind m k) b.
Proof.
  intros (t1 & Hm & Hp1) (t2 & Hk & Hp2).
  exists (t1 ++ t2)%list; split.
  - rewrite (bind_returns _ _ _ _ Hm), Hk; reflexivity.
  - rewrite forallb_app, Hp1, Hp2; reflexivity.
Qed.

Lemma returns_for_each {A} (p : event -> bool) (l : list A) (body : A -> M unit) :
  (forall x, In x l -> returns_with p (body x) tt) ->
  returns_with p (for_each l body) tt.
Proof. apply for_each_returns. Qed.

Lemma node_attr_truthy (node : pyval) (k : string) (v : pyval) :
  node_attr k node = Some v -> truthy node = true.
Proof.
  destruct node as [| | | | | |d]; simpl; try discriminate.
  destruct d; [discriminate | reflexivity].
Qed.

Lemma get_default_dict (v : pyval) (k : string) (default : pyval) :
  is_dict v = true -> exists x, get_default v k default = Ok x.
Proof.
  destruct v; simpl; try discriminate; intros _.
  destruct (assoc k d); eexists; reflexivity.
Qed.

Lemma printable_node_inv (node : pyval) :
  printable_node node = true ->
  valid_node node = true /\
  exists cols, node_attr "columns" node = Some (PyDict cols) /\
               forallb valid_column (map snd cols) = true.
Proof.
  unfold printable_node; intros H; apply andb_prop in H as [Hv Hc].
  split; [exact Hv|].
  destruct (node_attr "columns" node) as [[| | | | | |cols]|]; try discriminate.
  exists cols; split; [reflexivity | exact Hc].
Qed.

Lemma forallb_printable_valid (nodes : list pyval) :
  forallb printable_node nodes = true -> forallb valid_node nodes = true.
Proof.
  rewrite !forallb_forall; intros H n Hn.
  apply printable_node_inv, H, Hn.
Qed.

Section ReportFacts.

Variable str_lower : string -> string.
Variable py_str : pyval -> string.
Variable frame : Type.
Variable duckdb : engine frame.

Lemma route_ready (llm_choice : string) (key : option string)
      (question : string) (names : list pyval) :
  backend_ready llm_choice key = true ->
  exists response,
    returns_with is_quiet (route py_str llm_choice key question names)
                 (response, related_tables_stub).
Proof.
  unfold backend_ready, route.
  destruct (llm_choice =? "openai").
  - intros ->; eexists; eexists; split; reflexivity.
  - destruct (llm_choice =? "ollama"); [intros _; eexists; eexists; split; reflexivity|].
    destruct (llm_choice =? "debug"); [|discriminate].
    intros _; eexists; eexists; split; reflexivity.
Qed.

Lemma query_advice_returns (llm_choice : string) :
  returns_with is_quiet (query_advice llm_choice) tt.
Proof.
  unfold query_advice.
  destruct (llm_choice =? "openai"); [eexists; split; reflexivity|].
  destruct (llm_choice =? "ollama"); [eexists; split; reflexivity|].
  destruct (llm_choice =? "debug"); eexists; split; reflexivity.
Qed.

(** Without DuckDB, the report on one table of a printable catalog
    returns and only prints. *)
Lemma report_table_returns (doc : pyval) (path table_name : string) :
  printable_catalog doc = true ->
  returns_with is_quiet
    (report_table str_lower py_str false duckdb doc path table_name) tt.
Proof.
  unfold printable_catalog.
  destruct (catalog_nodes doc) as [nodes|] eqn:Hn; [|discriminate].
  intros Hp; unfold report_table.
  eapply returns_bind.
  { apply returns_lift.
    rewrite (get_table_info_nodes str_lower _ _ table_name Hn).
    apply get_table_info_loop_named, forallb_valid_named,
      forallb_printable_valid, Hp. }
  destruct (first_match_cases str_lower table_name nodes) as [->|[Hin _]].
  { simpl; apply returns_print. }
  set (node := first_match str_lower nodes table_name) in *.
  assert (Hnode : printable_node node = true).
  { rewrite forallb_forall in Hp; apply Hp, Hin. }
  destruct (printable_node_inv _ Hnode) as (Hv & cols & Hcols & Hcv).
  rewrite (node_attr_truthy _ _ _ Hcols).
  destruct (get_default_dict node "description"
              (PyStr "No description available.")
              (node_attr_is_dict _ _ _ Hcols)) as (d & Hd).
  eapply returns_bind; [apply returns_print|].
  eapply returns_bind; [apply returns_lift, Hd|].
  eapply returns_bind; [apply returns_print|].
  eapply returns_bind; [apply returns_print|].
  eapply returns_bind.
  { apply returns_lift; rewrite (getitem_node_attr _ _ _ Hcols); reflexivity. }
  eapply returns_bind.
  { apply returns_for_each; intros [column_name column_info] Hcol.
    assert (Hc : valid_column column_info = true).
    { rewrite forallb_forall in Hcv; apply Hcv.
      apply (in_map snd) in Hcol; exact Hcol. }
    unfold valid_column, has_key in Hc.
    destruct (node_attr "dtype" column_info) as [dtype|] eqn:Hdt; [|discriminate].
    destruct (get_default_dict column_info "description"
                (PyStr "No description.")
                (node_attr_is_dict _ _ _ Hdt)) as (cd & Hcd).
    eapply returns_bind; [apply returns_lift, (getitem_node_attr _ _ _ Hdt)|].
    eapply returns_bind; [apply returns_lift, Hcd|].
    apply returns_print. }
  eexists; split; reflexivity.
Qed.

End ReportFacts.

(* ------------------------------------------------------------------ *)
(** * The claims about runs of [main] *)

(** C4.  When reading the catalog fails, [main] opens the file once,
    prints the message of the failure kind (file not found, invalid JSON,
    any other exception) and exits with status 1; [load_catalog] itself
    returns [None] after printing, and nothing is retried. *)
Theorem load_failure_exits :
  forall (str_lower : string -> string) (py_str : pyval -> string)
         (frame : Type) (duckdb : engine frame) (avail : bool)
         (fs : string -> read_outcome) (a : args),
    (fs (catalog a) = FileNotFoundError ->
     main str_lower py_str avail duckdb fs a =
     ([EvOpen (catalog a);
       EvPrint ("Error: catalog.json file not found at " ++ catalog a)],
      Exit 1%Z)) /\
    (fs (catalog a) = JSONDecodeError ->
     main str_lower py_str avail duckdb fs a =
     ([EvOpen (catalog a);
       EvPrint ("Error: Invalid JSON in catalog.json at " ++ catalog a)],
      Exit 1%Z)) /\
    (forall e, fs (catalog a) = OtherException e ->
     main str_lower py_str avail duckdb fs a =
     ([EvOpen (catalog a); EvPrint ("Error loading catalog.json: " ++ e)],
      Exit 1%Z)) /\
    (read_failed (fs (catalog a)) = true ->
     outcome_of (load_catalog fs (catalog a)) = Ret PyNone /\
     exit_code (main str_lower py_str avail duckdb fs a) = Some 1%Z /\
     count_event is_open (trace (main str_lower py_str avail duckdb fs a)) = 1 /\
     length (printed (trace (main str_lower py_str avail duckdb fs a))) = 1).
Proof.
  intros str_lower py_str frame duckdb avail fs a.
  repeat match goal with |- _ /\ _ => split end.
  - intros H; unfold main, load_catalog; rewrite H; reflexivity.
  - intros H; unfold main, load_catalog; rewrite H; reflexivity.
  - intros e H; unfold main, load_catalog; rewrite H; reflexivity.
  - intros H; destruct (load_catalog_failed fs (catalog a) H) as (msg & Hl).
    rewrite (main_not_loaded str_lower py_str frame duckdb avail fs a _ _ Hl eq_refl).
    rewrite Hl; repeat split; reflexivity.
Qed.

(** C5.  With the catalog loaded and its tables listed, the [openai]
    backend without an API key ([None] or the empty string) prints the
    missing-key error and exits with status 1: the file was opened, nothing
    else was printed and no table was looked up or sampled.  With a
    non-empty key the router goes on: it prints the question, the table
    list and the canned response, and hands over the related tables. *)
Theorem openai_requires_api_key :
  forall (str_lower : string -> string) (py_str : pyval -> string)
         (frame : Type) (duckdb : engine frame) (avail : bool)
         (fs : string -> read_outcome) (a : args)
         (doc : pyval) (names : list pyval),
    fs (catalog a) = ReadOk doc ->
    truthy doc = true ->
    get_table_names doc = Ok names ->
    llm a = "openai" ->
    (opt_truthy (api_key a) = false ->
     main str_lower py_str avail duckdb fs a =
     ([EvOpen (catalog a);
       EvPrint "Error: --api-key is required when using OpenAI."],
      Exit 1%Z)) /\
    (opt_truthy (api_key a) = true ->
     route py_str "openai" (api_key a) (String.concat " " (question a)) names =
     ([EvPrint ("Calling OpenAI with question: " ++ String.concat " " (question a));
       EvPrint ("Tables in catalog: " ++ py_str (PyList names))],
      Ret ("I think the relevant tables are customers, orders, and products.",
           related_tables_stub)) /\
     exists rest,
       trace (main str_lower py_str avail duckdb fs a) =
       ([EvOpen (catalog a);
         EvPrint ("Calling OpenAI with question: " ++ String.concat " " (question a));
         EvPrint ("Tables in catalog: " ++ py_str (PyList names));
         EvPrint "I think the relevant tables are customers, orders, and products."]
        ++ rest)%list).
Proof.
  intros str_lower py_str frame duckdb avail fs a doc names Hfs Ht Hn Hllm.
  rewrite (main_loaded str_lower py_str frame duckdb avail fs a doc names Hfs Ht Hn).
  rewrite Hllm; split; intros Hkey.
  - unfold route; simpl; rewrite Hkey; reflexivity.
  - assert (Hr : route py_str "openai" (api_key a)
                   (String.concat " " (question a)) names =
                 ([EvPrint ("Calling OpenAI with question: "
                            ++ String.concat " " (question a));
                   EvPrint ("Tables in catalog: " ++ py_str (PyList names))],
                  Ret ("I think the relevant tables are customers, orders, and products.",
                       related_tables_stub))).
    { unfold route; simpl; rewrite Hkey; reflexivity. }
    split; [exact Hr|].
    rewrite bind_emit, (bind_returns _ _ _ _ Hr); cbv iota beta.
    unfold print at 1; rewrite bind_emit.
    eexists; reflexivity.
Qed.

(** C6.  Whatever the question and the table list, the router returns a
    fixed response and the related tables [customers; orders; products]:
    for [openai] with a non-empty key, for [ollama] and for [debug]; the
    last two never look at the key, and [debug] only prints its notice. *)
Theorem route_is_canned :
  forall (py_str : pyval -> string) (question : string)
         (table_names : list pyval) (key : option string),
    (opt_truthy key = true ->
     outcome_of (route py_str "openai" key question table_names) =
     Ret ("I think the relevant tables are customers, orders, and products.",
          ["customers"; "orders"; "products"])) /\
    outcome_of (route py_str "ollama" key question table_names) =
    Ret ("Ollama says the relevant tables are:  customers, orders, and products.",
         ["customers"; "orders"; "products"]) /\
    route py_str "debug" key question table_names =
    ([EvPrint "Debug mode:  No LLM call."],
     Ret ("Debug response:  The relevant tables are: customers, orders, and products.",
          ["customers"; "orders"; "products"])).
Proof.
  intros py_str question table_names key; split; [|split].
  - intros Hkey; unfold route; simpl; rewrite Hkey; reflexivity.
  - reflexivity.
  - reflexivity.
Qed.

(** C9.  A catalog file that parses to a falsy value (the empty object or
    array, null, 0, false, ...) is loaded without any message, yet [main]
    exits with status 1, the status of a load failure, before the router or
    any lookup runs. *)
Theorem falsy_catalog_exits :
  forall (str_lower : string -> string) (py_str : pyval -> string)
         (frame : Type) (duckdb : engine frame) (avail : bool)
         (fs : string -> read_outcome) (a : args) (doc : pyval),
    fs (catalog a) = ReadOk doc ->
    truthy doc = false ->
    load_catalog fs (catalog a) = ([EvOpen (catalog a)], Ret doc) /\
    main str_lower py_str avail duckdb fs a = ([EvOpen (catalog a)], Exit 1%Z) /\
    (forall fs', read_failed (fs' (catalog a)) = true ->
       exit_code (main str_lower py_str avail duckdb fs a) =
       exit_code (main str_lower py_str avail duckdb fs' a)).
Proof.
  intros str_lower py_str frame duckdb avail fs a doc Hfs Hf.
  assert (Hl := load_catalog_ok fs _ _ Hfs).
  assert (Hm := main_not_loaded str_lower py_str frame duckdb avail fs a _ _ Hl Hf).
  split; [exact Hl|]; split; [exact Hm|].
  intros fs' Hfail.
  destruct (load_catalog_failed fs' (catalog a) Hfail) as (msg & Hl').
  rewrite Hm.
  rewrite (main_not_loaded str_lower py_str frame duckdb avail fs' a _ _ Hl' eq_refl).
  reflexivity.
Qed.

Lemma quiet_no_engine_event (t : list event) :
  forallb is_quiet t = true -> filter is_engine_event t = [].
Proof.
  induction t as [|e t IH]; [reflexivity|]; simpl.
  intros H; apply andb_prop in H as [He Ht].
  unfold is_quiet in He; destruct (is_engine_event e); [discriminate|].
  apply IH, Ht.
Qed.

(** Without DuckDB, [main] on a printable catalog with a ready backend
    returns, and only opens the catalog and prints. *)
Lemma main_returns_without_duckdb
      (str_lower : string -> string) (py_str : pyval -> string)
      (frame : Type) (duckdb : engine frame)
      (fs : string -> read_outcome) (a : args) (doc : pyval) :
  fs (catalog a) = ReadOk doc ->
  printable_catalog doc = true ->
  backend_ready (llm a) (api_key a) = true ->
  returns_with is_quiet (main str_lower py_str false duckdb fs a) tt.
Proof.
  intros Hfs Hp Hb.
  assert (Hp' := Hp); unfold printable_catalog in Hp'.
  destruct (catalog_nodes doc) as [nodes|] eqn:Hn; [|discriminate].
  destruct (catalog_nodes_inv _ _ Hn) as [Ht _].
  assert (Hnames : get_table_names doc =
                   Ok (map node_name (filter is_queryable nodes))).
  { rewrite (get_table_names_nodes _ _ Hn).
    apply (get_table_names_loop_valid _ (forallb_printable_valid _ Hp')). }
  rewrite (main_loaded str_lower py_str frame duckdb false fs a doc _ Hfs Ht Hnames).
  destruct (route_ready py_str (llm a) (api_key a)
              (String.concat " " (question a))
              (map node_name (filter is_queryable nodes)) Hb) as (response & Hr).
  eapply returns_bind; [exists [EvOpen (catalog a)]; split; reflexivity|].
  eapply returns_bind; [exact Hr|]; cbv iota beta.
  eapply returns_bind; [apply returns_print|].
  eapply returns_bind.
  { apply returns_for_each; intros table_name _.
    apply report_table_returns, Hp. }
  eapply returns_bind; [apply query_advice_returns|].
  apply returns_print.
Qed.

(** C7.  Without DuckDB, [get_sample_data_duckdb] and
    [get_table_schema_duckdb] return the fixed message for every table and
    data path, raise nothing and never reach the engine; and [main], on a
    catalog in the expected format with a backend that passes its check,
    still runs to the end: exit status 0, no engine event. *)
Theorem duckdb_unavailable_is_harmless :
  forall (str_lower : string -> string) (py_str : pyval -> string)
         (frame : Type) (duckdb : engine frame)
         (fs : string -> read_outcome) (a : args) (doc : pyval)
         (table_name path : string),
    (get_sample_data_duckdb false duckdb table_name path =
       ([], Ret "DuckDB is not available. Please install it to use this feature.") /\
     get_table_schema_duckdb false duckdb table_name path =
       ([], Ret "DuckDB is not available. Please install it to use this feature.")) /\
    (fs (catalog a) = ReadOk doc ->
     printable_catalog doc = true ->
     backend_ready (llm a) (api_key a) = true ->
     exit_code (main str_lower py_str false duckdb fs a) = Some 0%Z /\
     outcome_of (main str_lower py_str false duckdb fs a) = Ret tt /\
     filter is_engine_event (trace (main str_lower py_str false duckdb fs a)) = []).
Proof.
  intros str_lower py_str frame duckdb fs a doc table_name path; split.
  - apply sampling_unavailable.
  - intros Hfs Hp Hb.
    destruct (main_returns_without_duckdb str_lower py_str frame duckdb fs a doc
                Hfs Hp Hb) as (t & Hm & Hq).
    rewrite Hm; repeat split.
    apply quiet_no_engine_event, Hq.
Qed.

(** C8.  The session discipline of the sampling operations at the input
    where it breaks: DuckDB is available and the table's files are not
    found, as with [main]'s relative path.  Each call opens its own session
    and runs one query; the query raises, the error is returned as text,
    and [conn.close()] is not reached: the session stays open.  When the
    query succeeds the session is closed. *)
Theorem session_left_open_on_query_failure :
  get_sample_data_duckdb true Sample.empty_dir_engine "customers" "data" =
    ([EvConnect;
      EvExecute "SELECT * FROM read_parquet('customers/*.parquet') LIMIT 5"],
     Ret ("Error retrieving sample data with DuckDB: " ++ Sample.no_files)) /\
  get_table_schema_duckdb true Sample.empty_dir_engine "customers" "data" =
    ([EvConnect;
      EvExecute "DESCRIBE SELECT * FROM read_parquet('customers/*.parquet') LIMIT 5"],
     Ret ("Error retrieving table schema with DuckDB: " ++ Sample.no_files)) /\
  open_sessions
    (trace (get_sample_data_duckdb true Sample.empty_dir_engine "customers" "data")) 0 = 1 /\
  open_sessions
    (trace (get_table_schema_duckdb true Sample.empty_dir_engine "customers" "data")) 0 = 1 /\
  count_event is_close
    (trace (main lower_ascii Sample.py_str true Sample.empty_dir_engine
                 (Sample.fs_with Sample.catalog_doc) (Sample.cli "debug" None))) = 0 /\
  open_sessions
    (trace (main lower_ascii Sample.py_str true Sample.empty_dir_engine
                 (Sample.fs_with Sample.catalog_doc) (Sample.cli "debug" None))) 0 = 4 /\
  open_sessions
    (trace (get_sample_data_duckdb true Sample.working_engine "customers" "data")) 0 = 0 /\
  open_sessions
    (trace (main lower_ascii Sample.py_str true Sample.working_engine
                 (Sample.fs_with Sample.catalog_doc) (Sample.cli "debug" None))) 0 = 0.
Proof.
  assert (Hq : generate_duckdb_query true "customers" "data" =
               Some "SELECT * FROM read_parquet('customers/*.parquet') LIMIT 5")
    by reflexivity.
  destruct (sample_data_session Sample.rows Sample.empty_dir_engine
              "customers" "data" _ Hq eq_refl) as [Hs _].
  destruct (table_schema_session Sample.rows Sample.empty_dir_engine
              "customers" "data" _ Hq eq_refl) as [Ht _].
  rewrite (Hs Sample.no_files eq_refl), (Ht Sample.no_files eq_refl).
  repeat split; vm_compute; reflexivity.
Qed.

(* ------------------------------------------------------------------ *)
(** * The theorems at concrete inputs *)

(** C2 on the sample catalog: the source node is left out, the order is
    the catalog's. *)
Lemma get_table_names_spec_witness :
  catalog_nodes Sample.catalog_doc = Some Sample.nodes /\
  forallb valid_node Sample.nodes = true /\
  get_table_names Sample.catalog_doc = Ok [PyStr "Customers"; PyStr "orders"] /\
  get_table_names PyNone = Ok [].
Proof.
  split; [reflexivity|]; split; [reflexivity|]; split.
  - exact (proj1 (proj2 (get_table_names_spec Sample.catalog_doc Sample.nodes)
                    eq_refl eq_refl)).
  - exact (proj1 (get_table_names_spec PyNone []) eq_refl).
Defined.

(** C3 on the sample catalog, with ASCII lower-casing. *)
Lemma get_table_info_spec_witness :
  node_name Sample.customers_node = PyStr "Customers" /\
  (get_table_info lower_ascii Sample.catalog_doc "customers" = Ok Sample.customers_node /\
   get_table_info lower_ascii Sample.catalog_doc "CUSTOMERS" = Ok Sample.customers_node /\
   get_table_info lower_ascii Sample.catalog_doc "Customers" = Ok Sample.customers_node) /\
  get_table_info lower_ascii Sample.catalog_doc "ORDERS" = Ok Sample.orders_node /\
  get_table_info lower_ascii Sample.catalog_doc "products" = Ok PyNone /\
  get_table_info lower_ascii (PyDict []) "customers" = Ok PyNone /\
  get_table_info lower_ascii PyNone "customers" = Ok PyNone.
Proof.
  destruct (get_table_info_spec lower_ascii) as (Hfalsy & Hvalid & Hfirst & Hcase & Hcust).
  split; [reflexivity|]; split; [|split; [|split; [|split]]].
  - apply (Hcust Sample.catalog_doc [] Sample.customers_node
             [Sample.raw_node; Sample.orders_node]);
      [reflexivity | reflexivity | intros n [] | reflexivity].
  - apply (Hfirst Sample.catalog_doc [Sample.customers_node; Sample.raw_node]
             Sample.orders_node [] "ORDERS");
      [reflexivity | reflexivity | | reflexivity].
    intros n [<-|[<-|[]]]; reflexivity.
  - apply (proj2 (Hvalid Sample.catalog_doc Sample.nodes "products" eq_refl eq_refl)).
    intros n [<-|[<-|[<-|[]]]]; reflexivity.
  - apply Hfalsy; reflexivity.
  - apply Hfalsy; reflexivity.
Defined.

(** C4 at a missing file, a file that is not JSON and an unreadable one. *)
Lemma load_failure_exits_witness :
  main lower_ascii Sample.py_str true Sample.working_engine
       (Sample.fs_with Sample.catalog_doc) (Sample.cli_at "missing.json") =
  ([EvOpen "missing.json";
    EvPrint "Error: catalog.json file not found at missing.json"], Exit 1%Z) /\
  main lower_ascii Sample.py_str true Sample.working_engine
       (Sample.fs_with Sample.catalog_doc) (Sample.cli_at "broken.json") =
  ([EvOpen "broken.json";
    EvPrint "Error: Invalid JSON in catalog.json at broken.json"], Exit 1%Z) /\
  main lower_ascii Sample.py_str true Sample.working_engine
       (Sample.fs_with Sample.catalog_doc) (Sample.cli_at "/root/secret.json") =
  ([EvOpen "/root/secret.json";
    EvPrint "Error loading catalog.json: [Errno 13] Permission denied: '/root/secret.json'"],
   Exit 1%Z) /\
  exit_code (main lower_ascii Sample.py_str true Sample.working_engine
               (Sample.fs_with Sample.catalog_doc) (Sample.cli_at "missing.json"))
  = Some 1%Z.
Proof.
  split; [|split; [|split]].
  - apply (proj1 (load_failure_exits lower_ascii Sample.py_str Sample.rows
                    Sample.working_engine true (Sample.fs_with Sample.catalog_doc)
                    (Sample.cli_at "missing.json"))); reflexivity.
  - apply (proj1 (proj2 (load_failure_exits lower_ascii Sample.py_str Sample.rows
                    Sample.working_engine true (Sample.fs_with Sample.catalog_doc)
                    (Sample.cli_at "broken.json")))); reflexivity.
  - apply (proj1 (proj2 (proj2 (load_failure_exits lower_ascii Sample.py_str
                    Sample.rows Sample.working_engine true
                    (Sample.fs_with Sample.catalog_doc)
                    (Sample.cli_at "/root/secret.json"))))); reflexivity.
  - apply (proj2 (proj2 (proj2 (load_failure_exits lower_ascii Sample.py_str
                    Sample.rows Sample.working_engine true
                    (Sample.fs_with Sample.catalog_doc)
                    (Sample.cli_at "missing.json"))))); reflexivity.
Defined.

(** C5 on the sample catalog: no key, an empty key, a key. *)
Lemma openai_requires_api_key_witness :
  main lower_ascii Sample.py_str true Sample.working_engine
       (Sample.fs_with Sample.catalog_doc) (Sample.cli "openai" None) =
  ([EvOpen "target/catalog.json";
    EvPrint "Error: --api-key is required when using OpenAI."], Exit 1%Z) /\
  main lower_ascii Sample.py_str true Sample.working_engine
       (Sample.fs_with Sample.catalog_doc) (Sample.cli "openai" (Some "")) =
  ([EvOpen "target/catalog.json";
    EvPrint "Error: --api-key is required when using OpenAI."], Exit 1%Z) /\
  outcome_of (route Sample.py_str "openai" (Some "sk-1") "who ordered most?"
                [PyStr "Customers"; PyStr "orders"]) =
  Ret ("I think the relevant tables are customers, orders, and products.",
       related_tables_stub).
Proof.
  split; [|split].
  - apply (proj1 (openai_requires_api_key lower_ascii Sample.py_str Sample.rows
                    Sample.working_engine true (Sample.fs_with Sample.catalog_doc)
                    (Sample.cli "openai" None) Sample.catalog_doc
                    [PyStr "Customers"; PyStr "orders"]
                    eq_refl eq_refl eq_refl eq_refl)); reflexivity.
  - apply (proj1 (openai_requires_api_key lower_ascii Sample.py_str Sample.rows
                    Sample.working_engine true (Sample.fs_with Sample.catalog_doc)
                    (Sample.cli "openai" (Some "")) Sample.catalog_doc
                    [PyStr "Customers"; PyStr "orders"]
                    eq_refl eq_refl eq_refl eq_refl)); reflexivity.
  - exact (f_equal (@outcome_of _)
             (proj1 (proj2 (openai_requires_api_key lower_ascii Sample.py_str
                    Sample.rows Sample.working_engine true
                    (Sample.fs_with Sample.catalog_doc)
                    (Sample.cli "openai" (Some "sk-1")) Sample.catalog_doc
                    [PyStr "Customers"; PyStr "orders"]
                    eq_refl eq_refl eq_refl eq_refl) eq_refl))).
Defined.

(** C6 with a key, on an empty and on a non-empty table list. *)
Lemma route_is_canned_witness :
  outcome_of (route Sample.py_str "openai" (Some "sk-1") "who ordered most?" []) =
  Ret ("I think the relevant tables are customers, orders, and products.",
       ["customers"; "orders"; "products"]) /\
  route Sample.py_str "debug" None "anything" [PyStr "orders"] =
  ([EvPrint "Debug mode:  No LLM call."],
   Ret ("Debug response:  The relevant tables are: customers, orders, and products.",
        ["customers"; "orders"; "products"])).
Proof.
  split.
  - apply (proj1 (route_is_canned Sample.py_str "who ordered most?" [] (Some "sk-1")));
      reflexivity.
  - apply (proj2 (proj2 (route_is_canned Sample.py_str "anything"
                           [PyStr "orders"] None))).
Defined.

(** C7 on the sample catalog with the debug backend. *)
Lemma duckdb_unavailable_is_harmless_witness :
  printable_catalog Sample.catalog_doc = true /\
  backend_ready "debug" None = true /\
  exit_code (main lower_ascii Sample.py_str false Sample.working_engine
               (Sample.fs_with Sample.catalog_doc) (Sample.cli "debug" None))
  = Some 0%Z.
Proof.
  split; [reflexivity|]; split; [reflexivity|].
  apply (proj2 (duckdb_unavailable_is_harmless lower_ascii Sample.py_str
                  Sample.rows Sample.working_engine
                  (Sample.fs_with Sample.catalog_doc) (Sample.cli "debug" None)
                  Sample.catalog_doc "customers" "data")); reflexivity.
Defined.

(** C9 on a catalog file holding the empty object. *)
Lemma falsy_catalog_exits_witness :
  Forall (fun doc => truthy doc = false) Sample.falsy_docs /\
  main lower_ascii Sample.py_str true Sample.working_engine
       (Sample.fs_with (PyDict [])) (Sample.cli "debug" None) =
  ([EvOpen "target/catalog.json"], Exit 1%Z).
Proof.
  split; [repeat constructor|].
  apply (falsy_catalog_exits lower_ascii Sample.py_str Sample.rows
           Sample.working_engine true (Sample.fs_with (PyDict []))
           (Sample.cli "debug" None) (PyDict []) eq_refl eq_refl).
Defined.

(** C10 at concrete documents: each way of raising [KeyError], also
    after nodes that are not in the expected format, and the documents on
    which the lookups return. *)
Lemma catalog_index_raises_witness :
  (get_table_info lower_ascii Sample.no_nodes_doc "customers" = Err (KeyError "nodes") /\
   get_table_names Sample.no_nodes_doc = Err (KeyError "nodes")) /\
  get_table_names Sample.untyped_doc = Err (KeyError "resource_type") /\
  get_table_names Sample.unnamed_model_doc = Err (KeyError "name") /\
  get_table_names Cases.source_then_untyped_doc = Err (KeyError "resource_type") /\
  get_table_info lower_ascii Sample.unnamed_model_doc "orders" = Err (KeyError "name") /\
  get_table_info lower_ascii Cases.untyped_then_unnamed_doc "orders"
  = Err (KeyError "name") /\
  get_table_info lower_ascii Cases.untyped_then_unnamed_doc "CUSTOMERS"
  = Ok Sample.untyped_node /\
  (exists v, get_table_info lower_ascii Sample.catalog_doc "orders" = Ok v) /\
  (exists v, get_table_info lower_ascii Sample.untyped_doc "orders" = Ok v) /\
  (exists l, get_table_names Sample.unnamed_source_doc = Ok l).
Proof.
  destruct (catalog_index_raises lower_ascii)
    as (_ & Hvalid & Hnamed & Hlistable & Hnodes & Hnames & Hinfo & Hfirst).
  repeat match goal with |- _ /\ _ => split end.
  - apply (proj1 (Hnodes [("metadata", PyDict [])] "customers" eq_refl eq_refl)).
  - apply (proj2 (Hnodes [("metadata", PyDict [])] "customers" eq_refl eq_refl)).
  - apply (proj2 (Hnames Sample.untyped_doc [Sample.untyped_node]
                    "resource_type" eq_refl)).
    exists [], Sample.untyped_node, []; repeat split; left; split; reflexivity.
  - apply (proj2 (Hnames Sample.unnamed_model_doc
                    [Sample.customers_node; Sample.unnamed_model] "name" eq_refl)).
    exists [Sample.customers_node], Sample.unnamed_model, []; repeat split.
    right; repeat split.
  - apply (proj2 (Hnames Cases.source_then_untyped_doc
                    [Sample.unnamed_source; Sample.untyped_node]
                    "resource_type" eq_refl)).
    exists [Sample.unnamed_source], Sample.untyped_node, []; repeat split.
    left; split; reflexivity.
  - apply (proj2 (Hinfo Sample.unnamed_model_doc
                    [Sample.customers_node; Sample.unnamed_model]
                    "orders" "name" eq_refl)).
    split; [reflexivity|].
    exists [Sample.customers_node], Sample.unnamed_model, []; repeat split.
    intros n [<-|[]]; reflexivity.
  - apply (proj2 (Hinfo Cases.untyped_then_unnamed_doc
                    [Sample.untyped_node; Sample.unnamed_model]
                    "orders" "name" eq_refl)).
    split; [reflexivity|].
    exists [Sample.untyped_node], Sample.unnamed_model, []; repeat split.
    intros n [<-|[]]; reflexivity.
  - apply (Hfirst Cases.untyped_then_unnamed_doc [] Sample.untyped_node
             [Sample.unnamed_model] "CUSTOMERS");
      [reflexivity | reflexivity | intros n [] | reflexivity].
  - apply (proj1 (Hvalid Sample.catalog_doc "orders" eq_refl)).
  - apply (Hnamed Sample.untyped_doc [Sample.untyped_node] "orders");
      reflexivity.
  - apply (Hlistable Sample.unnamed_source_doc [Sample.unnamed_source]);
      reflexivity.
Defined.

(** C10 as first stated fails: a node without [resource_type] does not
    make [get_table_info] raise, a node without [name] does not make
    [get_table_names] raise when its type is not listed, nor
    [get_table_info] when an earlier node matches. *)
Lemma missing_key_need_not_raise :
  (has_key "resource_type" Sample.untyped_node = false /\
   get_table_info lower_ascii Sample.untyped_doc "customers" = Ok Sample.untyped_node) /\
  (has_key "name" Sample.unnamed_source = false /\
   get_table_names Sample.unnamed_source_doc = Ok []) /\
  (has_key "name" Sample.unnamed_model = false /\
   get_table_info lower_ascii Sample.unnamed_model_doc "customers" =
   Ok Sample.customers_node).
Proof. repeat split. Qed.

(* ------------------------------------------------------------------ *)
(** * Further properties of the Catalog Index *)

Lemma nodes_of_doc (doc ns : pyval) (vs : list pyval) :
  getitem doc "nodes" = Ok ns -> values ns = Ok vs ->
  catalog_nodes doc = Some vs.
Proof.
  destruct doc; simpl; try discriminate.
  destruct (assoc "nodes" d) as [x|]; [|discriminate].
  intros H; injection H as ->.
  destruct ns; simpl; try discriminate.
  intros H; injection H as <-; reflexivity.
Qed.

(** What a returned scan of [get_table_info] tells about the nodes. *)
Lemma get_table_info_loop_sound (str_lower : string -> string)
      (q : string) (nodes : list pyval) (v : pyval) :
  get_table_info_loop str_lower nodes q = Ok v ->
  (v = PyNone /\ forallb named_node nodes = true /\
   forall n, In n nodes -> name_matches str_lower q n = false) \/
  (exists before after,
      nodes = (before ++ v :: after)%list /\
      forallb named_node before = true /\
      (forall n, In n before -> name_matches str_lower q n = false) /\
      name_matches str_lower q v = true).
Proof.
  induction nodes as [|node rest IH]; simpl.
  - intros H; injection H as <-; left; repeat split; intros n [].
  - destruct (getitem node "name") as [name|e] eqn:Hg; [simpl|discriminate].
    apply getitem_ok_inv in Hg.
    destruct name; simpl; try discriminate.
    assert (Hnamed : named_node node = true)
      by (unfold named_node; rewrite Hg; reflexivity).
    assert (Hm : name_matches str_lower q node =
                 (str_lower s =? str_lower q))
      by (unfold name_matches, node_name; rewrite Hg; reflexivity).
    destruct (str_lower s =? str_lower q) eqn:Heq.
    + intros H; injection H as <-; right; exists [], rest.
      repeat split; [intros n [] | exact Hm].
    + intros H; destruct (IH H) as [(-> & Hall & Hno)|(before & after & -> & Hall & Hno & Hv)].
      * left; repeat split; [simpl; rewrite Hnamed; exact Hall|].
        intros n [<-|Hn]; [exact Hm | apply Hno, Hn].
      * right; exists (node :: before), after; repeat split.
        -- simpl; rewrite Hnamed; exact Hall.
        -- intros n [<-|Hn]; [exact Hm | apply Hno, Hn].
        -- exact Hv.
Qed.

(** X1.  Whatever the document, when [get_table_info] returns it returns
    either [None] -- the document is falsy, or every node carries a string
    name and none matches -- or a node of the catalog: a truthy mapping
    whose name equals the query up to case, preceded only by named nodes
    that do not match.  A found node is never mistaken for [None] by the
    truth test [main] applies to the result. *)
Theorem get_table_info_sound :
  forall (str_lower : string -> string) (doc : pyval) (q : string) (v : pyval),
    get_table_info str_lower doc q = Ok v ->
    (v = PyNone /\
     (truthy doc = false \/
      exists nodes, catalog_nodes doc = Some nodes /\
                    forallb named_node nodes = true /\
                    forall n, In n nodes -> name_matches str_lower q n = false)) \/
    (truthy v = true /\
     exists before after,
       catalog_nodes doc = Some (before ++ v :: after)%list /\
       forallb named_node before = true /\
       (forall n, In n before -> name_matches str_lower q n = false) /\
       name_matches str_lower q v = true).
Proof.
  intros str_lower doc q v; unfold get_table_info.
  destruct (truthy doc) eqn:Ht; simpl.
  - destruct (getitem doc "nodes") as [ns|e] eqn:Hg; [simpl|discriminate].
    destruct (values ns) as [vs|e] eqn:Hv; [simpl|discriminate].
    assert (Hn := nodes_of_doc _ _ _ Hg Hv).
    intros H; destruct (get_table_info_loop_sound _ _ _ _ H)
      as [(-> & Hall & Hno)|(before & after & -> & Hall & Hno & Hm)].
    + left; split; [reflexivity|]; right; exists vs; auto.
    + right; split.
      * destruct (name_matches_inv _ _ _ Hm) as (s & Hname & _).
        apply (node_attr_truthy _ _ _ Hname).
      * exists before, after; auto.
  - intros H; injection H as <-; left; auto.
Qed.

(** The scan of [get_table_names] returns exactly on listable nodes. *)
Lemma get_table_names_loop_iff (nodes : list pyval) :
  forall acc l,
    get_table_names_loop nodes acc = Ok l <->
    (forallb listable_node nodes = true /\
     l = (acc ++ map node_name (filter is_queryable nodes))%list).
Proof.
  induction nodes as [|node rest IH]; intros acc l; simpl.
  - rewrite app_nil_r; split.
    + intros H; injection H as <-; auto.
    + intros [_ ->]; reflexivity.
  - unfold listable_node at 1, has_key.
    destruct (getitem node "resource_type") as [rt|e] eqn:Hg; simpl.
    + apply getitem_ok_inv in Hg; rewrite Hg.
      rewrite (is_queryable_attr _ _ Hg).
      destruct (is_queryable node); simpl.
      * destruct (getitem node "name") as [name|e] eqn:Hn; simpl.
        -- apply getitem_ok_inv in Hn; rewrite Hn; simpl.
           rewrite IH, <- app_assoc; simpl.
           unfold node_name at 2; rewrite Hn; reflexivity.
        -- assert (Hno : node_attr "name" node = None).
           { destruct node; simpl in *; try reflexivity.
             destruct (assoc "name" d); [discriminate | reflexivity]. }
           rewrite Hno; simpl; split; [discriminate | intros [H _]; discriminate].
      * apply IH.
    + assert (Hno : node_attr "resource_type" node = None).
      { destruct node; simpl in *; try reflexivity.
        destruct (assoc "resource_type" d); [discriminate | reflexivity]. }
      rewrite Hno; simpl; split; [discriminate | intros [H _]; discriminate].
Qed.

(** X2.  [get_table_names] returns a list exactly in two cases: the
    document is falsy and the list is empty, or the document holds a
    [nodes] mapping whose every entry is a mapping with a [resource_type]
    and, when that type is listed, a [name]; the list is then the names of
    the listed nodes in order.  On every other document it raises. *)
Theorem get_table_names_returns_iff :
  forall (doc : pyval) (l : list pyval),
    get_table_names doc = Ok l <->
    (truthy doc = false /\ l = []) \/
    (exists nodes, catalog_nodes doc = Some nodes /\
                   forallb listable_node nodes = true /\
                   l = map node_name (filter is_queryable nodes)).
Proof.
  intros doc l; split.
  - unfold get_table_names.
    destruct (truthy doc) eqn:Ht; simpl.
    + destruct (getitem doc "nodes") as [ns|e] eqn:Hg; [simpl|discriminate].
      destruct (values ns) as [vs|e] eqn:Hv; [simpl|discriminate].
      intros H; apply get_table_names_loop_iff in H as [Hall ->].
      right; exists vs; split; [exact (nodes_of_doc _ _ _ Hg Hv)|]; auto.
    + intros H; injection H as <-; left; auto.
  - intros [[Hf ->]|(nodes & Hn & Hall & ->)].
    + unfold get_table_names; rewrite Hf; reflexivity.
    + rewrite (get_table_names_nodes _ _ Hn).
      apply get_table_names_loop_iff; auto.
Qed.

(** X12.  In a catalog whose nodes all carry a string name, looking up
    the name of any node, whatever its [resource_type], finds a node: a
    truthy node of the catalog whose name equals it up to case.  So every
    string that [get_table_names] lists can be looked up. *)
Theorem existing_name_is_found :
  forall (str_lower : string -> string) (doc : pyval) (nodes : list pyval),
    catalog_nodes doc = Some nodes ->
    forallb named_node nodes = true ->
    (forall node s,
        In node nodes -> node_name node = PyStr s ->
        exists found,
          get_table_info str_lower doc s = Ok found /\
          In found nodes /\
          name_matches str_lower s found = true /\
          truthy found = true) /\
    (forall l s,
        get_table_names doc = Ok l -> In (PyStr s) l ->
        exists found,
          get_table_info str_lower doc s = Ok found /\
          In found nodes /\
          name_matches str_lower s found = true /\
          truthy found = true).
Proof.
  intros str_lower doc nodes Hn Hall.
  assert (Hfind : forall node s,
             In node nodes -> node_name node = PyStr s ->
             exists found,
               get_table_info str_lower doc s = Ok found /\
               In found nodes /\
               name_matches str_lower s found = true /\
               truthy found = true).
  { intros node s Hin Hname.
    rewrite (get_table_info_nodes str_lower _ _ s Hn).
    rewrite (get_table_info_loop_named str_lower s nodes Hall).
    assert (Hm : name_matches str_lower s node = true).
    { unfold name_matches; rewrite Hname; apply String.eqb_refl. }
    destruct (first_match_cases str_lower s nodes) as [Hnone|[Hin' Hm']].
    - exfalso; unfold first_match in Hnone.
      destruct (find (name_matches str_lower s) nodes) as [n|] eqn:Hf.
      + apply find_some in Hf as [_ Hmn]; subst n.
        unfold name_matches in Hmn; simpl in Hmn; discriminate.
      + rewrite (find_none _ _ Hf node Hin) in Hm; discriminate.
    - eexists; split; [reflexivity|]; split; [exact Hin'|]; split; [exact Hm'|].
      destruct (name_matches_inv _ _ _ Hm') as (s' & Hattr & _).
      apply (node_attr_truthy _ _ _ Hattr). }
  split; [exact Hfind|].
  intros l s Hl Hin.
  rewrite (get_table_names_nodes _ _ Hn) in Hl.
  apply get_table_names_loop_iff in Hl as [_ ->].
  apply in_map_iff in Hin as (node & Hname & Hin).
  apply filter_In in Hin as [Hin _].
  apply (Hfind node s Hin Hname).
Qed.

(* ------------------------------------------------------------------ *)
(** * Further properties of the sampling adapter *)

Lemma sampling_cases
      (frame : Type) (duckdb : engine frame) (avail : bool)
      (table_name path : string) :
  get_sample_data_duckdb avail duckdb table_name path =
  (if avail then
     match connect duckdb with
     | inl e => ([], Ret ("Error retrieving sample data with DuckDB: " ++ e))
     | inr _ =>
         match execute_fetchdf duckdb (sample_query table_name) with
         | inl e => ([EvConnect; EvExecute (sample_query table_name)],
                     Ret ("Error retrieving sample data with DuckDB: " ++ e))
         | inr df =>
             ([EvConnect; EvExecute (sample_query table_name); EvClose],
              Ret match head_to_string duckdb df with
                  | inl e => "Error retrieving sample data with DuckDB: " ++ e
                  | inr text => text
                  end)
         end
     end
   else ([], Ret not_available)) /\
  get_table_schema_duckdb avail duckdb table_name path =
  (if avail then
     match connect duckdb with
     | inl e => ([], Ret ("Error retrieving table schema with DuckDB: " ++ e))
     | inr _ =>
         match execute_fetchdf duckdb ("DESCRIBE " ++ sample_query table_name) with
         | inl e => ([EvConnect; EvExecute ("DESCRIBE " ++ sample_query table_name)],
                     Ret ("Error retrieving table schema with DuckDB: " ++ e))
         | inr df =>
             ([EvConnect; EvExecute ("DESCRIBE " ++ sample_query table_name); EvClose],
              Ret match to_string duckdb df with
                  | inl e => "Error retrieving table schema with DuckDB: " ++ e
                  | inr text => text
                  end)
         end
     end
   else ([], Ret not_available)).
Proof.
  unfold get_sample_data_duckdb, get_table_schema_duckdb, generate_duckdb_query.
  destruct avail; cbn [negb]; [|split; reflexivity].
  fold (sample_query table_name).
  destruct (connect duckdb) as [e|u]; [split; reflexivity|].
  split.
  - destruct (execute_fetchdf duckdb (sample_query table_name)) as [e|df];
      [reflexivity|].
    destruct (head_to_string duckdb df); reflexivity.
  - destruct (execute_fetchdf duckdb ("DESCRIBE " ++ sample_query table_name))
      as [e|df]; [reflexivity|].
    destruct (to_string duckdb df); reflexivity.
Qed.

Ltac session_facts :=
  repeat match goal with
         | |- _ /\ _ => split
         | |- _ <-> _ => split
         end;
  simpl; intros;
  repeat match goal with
         | H : _ /\ _ |- _ => destruct H
         | H : exists _, _ |- _ => destruct H
         | H : False |- _ => destruct H
         end;
  try discriminate; try congruence; try lia;
  try (left; reflexivity);
  try (right; left; reflexivity);
  try (right; right; reflexivity);
  repeat match goal with
         | H : _ \/ _ |- _ => destruct H
         | H : False |- _ => destruct H
         end;
  try discriminate; try congruence;
  repeat match goal with
         | |- _ /\ _ => split
         | |- exists _, _ => eexists
         end;
  try reflexivity; auto.

(** X3.  Whatever the engine does, a sampling call returns a string: it
    never raises and never exits.  Its events are nothing at all, or a
    connection and one query, or a connection, one query and the closing of
    the session; the query is the table's own (the schema call the
    [DESCRIBE] of it), so at most one session is opened and at most one
    query executed.  The session is still open when the call returns
    exactly when DuckDB is available, the connection succeeded and the
    query raised. *)
Theorem sampling_session_discipline :
  forall (frame : Type) (duckdb : engine frame) (avail : bool)
         (table_name path : string),
    ((exists s, outcome_of (get_sample_data_duckdb avail duckdb table_name path)
                = Ret s) /\
     (trace (get_sample_data_duckdb avail duckdb table_name path) = [] \/
      trace (get_sample_data_duckdb avail duckdb table_name path) =
        [EvConnect; EvExecute (sample_query table_name)] \/
      trace (get_sample_data_duckdb avail duckdb table_name path) =
        [EvConnect; EvExecute (sample_query table_name); EvClose]) /\
     count_event is_connect
       (trace (get_sample_data_duckdb avail duckdb table_name path)) <= 1 /\
     count_event is_execute
       (trace (get_sample_data_duckdb avail duckdb table_name path)) <= 1 /\
     (forall q, In (EvExecute q)
                   (trace (get_sample_data_duckdb avail duckdb table_name path)) ->
                q = sample_query table_name) /\
     (open_sessions
        (trace (get_sample_data_duckdb avail duckdb table_name path)) 0 <= 1) /\
     (open_sessions
        (trace (get_sample_data_duckdb avail duckdb table_name path)) 0 = 1 <->
      avail = true /\ (exists u, connect duckdb = inr u) /\
      exists e, execute_fetchdf duckdb (sample_query table_name) = inl e)) /\
    ((exists s, outcome_of (get_table_schema_duckdb avail duckdb table_name path)
                = Ret s) /\
     (trace (get_table_schema_duckdb avail duckdb table_name path) = [] \/
      trace (get_table_schema_duckdb avail duckdb table_name path) =
        [EvConnect; EvExecute ("DESCRIBE " ++ sample_query table_name)] \/
      trace (get_table_schema_duckdb avail duckdb table_name path) =
        [EvConnect; EvExecute ("DESCRIBE " ++ sample_query table_name); EvClose]) /\
     count_event is_connect
       (trace (get_table_schema_duckdb avail duckdb table_name path)) <= 1 /\
     count_event is_execute
       (trace (get_table_schema_duckdb avail duckdb table_name path)) <= 1 /\
     (forall q, In (EvExecute q)
                   (trace (get_table_schema_duckdb avail duckdb table_name path)) ->
                q = "DESCRIBE " ++ sample_query table_name) /\
     (open_sessions
        (trace (get_table_schema_duckdb avail duckdb table_name path)) 0 <= 1) /\
     (open_sessions
        (trace (get_table_schema_duckdb avail duckdb table_name path)) 0 = 1 <->
      avail = true /\ (exists u, connect duckdb = inr u) /\
      exists e,
        execute_fetchdf duckdb ("DESCRIBE " ++ sample_query table_name) = inl e)).
Proof.
  intros frame duckdb avail table_name path.
  destruct (sampling_cases frame duckdb avail table_name path) as [Hs Ht].
  rewrite Hs, Ht; clear Hs Ht.
  destruct avail; [|split; session_facts].
  destruct (connect duckdb) as [e|u] eqn:Hc; [split; session_facts|].
  split.
  - destruct (execute_fetchdf duckdb (sample_query table_name)) as [e|df] eqn:He;
      session_facts.
  - destruct (execute_fetchdf duckdb ("DESCRIBE " ++ sample_query table_name))
      as [e|df] eqn:He; session_facts.
Qed.

(* ------------------------------------------------------------------ *)
(** * Invariants of runs *)

Lemma trace_bind {A B} (m : M A) (k : A -> M B) :
  trace (bind m k) =
  match outcome_of m with
  | Ret a => (trace m ++ trace (k a))%list
  | _ => trace m
  end.
Proof. destruct m as [t [a|e|c]]; simpl; [destruct (k a)|..]; reflexivity. Qed.

Lemma outcome_bind {A B} (m : M A) (k : A -> M B) :
  outcome_of (bind m k) =
  match outcome_of m with
  | Ret a => outcome_of (k a)
  | Raise e => Raise e
  | Exit c => Exit c
  end.
Proof. destruct m as [t [a|e|c]]; simpl; [destruct (k a)|..]; reflexivity. Qed.

Lemma bind_assoc {A B C} (m : M A) (f : A -> M B) (g : B -> M C) :
  bind (bind m f) g = bind m (fun x => bind (f x) g).
Proof.
  destruct m as [t [a|e|c]]; simpl; try reflexivity.
  destruct (f a) as [t1 [b|e|c]]; simpl; try reflexivity.
  destruct (g b) as [t2 o]; rewrite app_assoc; reflexivity.
Qed.

Lemma trace_all_bind {A B} (p : event -> bool) (m : M A) (k : A -> M B) :
  forallb p (trace m) = true ->
  (forall a, forallb p (trace (k a)) = true) ->
  forallb p (trace (bind m k)) = true.
Proof.
  intros Hm Hk; rewrite trace_bind.
  destruct (outcome_of m); [|exact Hm|exact Hm].
  rewrite forallb_app, Hm; apply Hk.
Qed.

Lemma run_ok_ret {A} (p : event -> bool) (a : A) : run_ok p (ret a).
Proof. split; reflexivity. Qed.

Lemma run_ok_print (p : event -> bool) (line : string) :
  p (EvPrint line) = true -> run_ok p (print line).
Proof. intros H; split; simpl; [rewrite H|]; reflexivity. Qed.

Lemma run_ok_lift {A} (p : event -> bool) (r : res A) : run_ok p (lift r).
Proof. destruct r; split; reflexivity. Qed.

Lemma run_ok_bind {A B} (p : event -> bool) (m : M A) (k : A -> M B) :
  run_ok p m -> (forall a, run_ok p (k a)) -> run_ok p (bind m k).
Proof.
  intros [Hm He] Hk; split.
  - apply trace_all_bind; [exact Hm | intros a; apply Hk].
  - unfold never_exits in *; rewrite outcome_bind.
    destruct (outcome_of m); [apply Hk | reflexivity | discriminate].
Qed.

Lemma run_ok_for_each {A} (p : event -> bool) (l : list A) (body : A -> M unit) :
  (forall x, In x l -> run_ok p (body x)) -> run_ok p (for_each l body).
Proof.
  induction l as [|x rest IH]; intros H; simpl.
  - apply run_ok_ret.
  - apply run_ok_bind; [apply H; left; reflexivity|].
    intros _; apply IH; intros y Hy; apply H; right; exact Hy.
Qed.

Lemma run_ok_sampling (p : event -> bool) (frame : Type) (duckdb : engine frame)
      (avail : bool) (table_name path : string) :
  accepts_sampling p avail table_name ->
  run_ok p (get_sample_data_duckdb avail duckdb table_name path) /\
  run_ok p (get_table_schema_duckdb avail duckdb table_name path).
Proof.
  intros Hp.
  destruct (sampling_cases frame duckdb avail table_name path) as [Hs Ht].
  rewrite Hs, Ht; clear Hs Ht.
  destruct avail; [|split; split; reflexivity].
  destruct Hp as [Hp|(Hc & Hcl & Hq & Hd)]; [discriminate|].
  destruct (connect duckdb) as [e|u]; [split; split; reflexivity|].
  split.
  - destruct (execute_fetchdf duckdb (sample_query table_name)); split;
      unfold trace; cbn [fst forallb]; rewrite ?Hc, ?Hcl, ?Hq; reflexivity.
  - destruct (execute_fetchdf duckdb ("DESCRIBE " ++ sample_query table_name));
      split; unfold trace; cbn [fst forallb]; rewrite ?Hc, ?Hcl, ?Hd;
      reflexivity.
Qed.

Ltac run_ok_steps Hprint :=
  repeat first
    [ apply run_ok_ret
    | apply run_ok_print; apply Hprint
    | apply run_ok_lift
    | match goal with
      | |- run_ok _ (if ?c then _ else _) => destruct c
      | |- run_ok _ (let (_, _) := ?x in _) => destruct x
      end
    | apply run_ok_bind; [|intros ?] ].

(** Whatever the document, the report on one table only prints and
    samples that table, and never exits. *)
Lemma report_table_run_ok
      (p : event -> bool) (str_lower : string -> string)
      (py_str : pyval -> string) (frame : Type) (duckdb : engine frame)
      (avail : bool) (doc : pyval) (path table_name : string) :
  (forall line, p (EvPrint line) = true) ->
  accepts_sampling p avail table_name ->
  run_ok p (report_table str_lower py_str avail duckdb doc path table_name).
Proof.
  intros Hprint Hs.
  destruct (run_ok_sampling p frame duckdb avail table_name path Hs) as [Hsd Hts].
  unfold report_table.
  apply run_ok_bind; [apply run_ok_lift|intros table_info].
  destruct (truthy table_info); [|apply run_ok_print, Hprint].
  apply run_ok_bind; [apply run_ok_print, Hprint|intros _].
  apply run_ok_bind; [apply run_ok_lift|intros description].
  apply run_ok_bind; [apply run_ok_print, Hprint|intros _].
  apply run_ok_bind; [apply run_ok_print, Hprint|intros _].
  apply run_ok_bind; [apply run_ok_lift|intros columns].
  apply run_ok_bind.
  { apply run_ok_for_each; intros [column_name column_info] _.
    run_ok_steps Hprint. }
  intros _.
  apply run_ok_bind; [exact Hsd|intros sample_data].
  apply run_ok_bind; [run_ok_steps Hprint|intros _].
  apply run_ok_bind; [exact Hts|intros table_schema].
  run_ok_steps Hprint.
Qed.

Lemma route_cases (py_str : pyval -> string) (llm_choice : string)
      (key : option string) (question : string) (names : list pyval) :
  exists lines,
    trace (route py_str llm_choice key question names) = map EvPrint lines /\
    ((backend_ready llm_choice key = true /\
      exists response,
        outcome_of (route py_str llm_choice key question names) =
        Ret (response, related_tables_stub)) \/
     (backend_ready llm_choice key = false /\
      outcome_of (route py_str llm_choice key question names) = Exit 1%Z)).
Proof.
  unfold route, backend_ready.
  destruct (llm_choice =? "openai").
  - destruct (opt_truthy key).
    + eexists [_; _]; split; [reflexivity|]; left; split; [reflexivity|].
      eexists; reflexivity.
    + eexists [_]; split; [reflexivity|]; right; split; reflexivity.
  - destruct (llm_choice =? "ollama").
    + eexists [_; _]; split; [reflexivity|]; left; split; [reflexivity|].
      eexists; reflexivity.
    + destruct (llm_choice =? "debug").
      * eexists [_]; split; [reflexivity|]; left; split; [reflexivity|].
        eexists; reflexivity.
      * eexists [_]; split; [reflexivity|]; right; split; reflexivity.
Qed.

Lemma forallb_map_print (p : event -> bool) (lines : list string) :
  (forall line, p (EvPrint line) = true) ->
  forallb p (map EvPrint lines) = true.
Proof.
  intros H; induction lines as [|l ls IH]; simpl; [reflexivity|].
  rewrite H, IH; reflexivity.
Qed.

Lemma query_advice_run_ok (p : event -> bool) (llm_choice : string) :
  (forall line, p (EvPrint line) = true) -> run_ok p (query_advice llm_choice).
Proof. intros Hprint; unfold query_advice; run_ok_steps Hprint. Qed.

(** The report that follows the router: the response, the three tables,
    the advice and the closing line. *)
Lemma report_run_ok
      (p : event -> bool) (str_lower : string -> string)
      (py_str : pyval -> string) (frame : Type) (duckdb : engine frame)
      (avail : bool) (doc : pyval) (path llm_choice response : string) :
  (forall line, p (EvPrint line) = true) ->
  (forall t, In t related_tables_stub -> accepts_sampling p avail t) ->
  run_ok p
    (bind (print response) (fun _ =>
     bind (for_each related_tables_stub
             (report_table str_lower py_str avail duckdb doc path)) (fun _ =>
     bind (query_advice llm_choice) (fun _ => print (nl ++ "Done."))))).
Proof.
  intros Hprint Hs.
  apply run_ok_bind; [apply run_ok_print, Hprint|intros _].
  apply run_ok_bind.
  { apply run_ok_for_each; intros t Ht.
    apply report_table_run_ok; [exact Hprint | apply Hs, Ht]. }
  intros _.
  apply run_ok_bind; [apply query_advice_run_ok, Hprint|intros _].
  apply run_ok_print, Hprint.
Qed.

Lemma trace_lift {A} (r : res A) : trace (lift r) = [].
Proof. destruct r; reflexivity. Qed.

(** Every run of [main] starts by opening the catalog; everything after
    that satisfies any [p] that accepts printing and the sampling of the
    three related tables. *)
Lemma main_events
      (p : event -> bool) (str_lower : string -> string)
      (py_str : pyval -> string) (frame : Type) (duckdb : engine frame)
      (avail : bool) (fs : string -> read_outcome) (a : args) :
  (forall line, p (EvPrint line) = true) ->
  (forall t, In t related_tables_stub -> accepts_sampling p avail t) ->
  exists rest,
    trace (main str_lower py_str avail duckdb fs a) = EvOpen (catalog a) :: rest /\
    forallb p rest = true.
Proof.
  intros Hprint Hs; unfold main, load_catalog; cbv zeta.
  rewrite bind_assoc, bind_emit.
  eexists; split; [reflexivity|].
  apply trace_all_bind.
  { destruct (fs (catalog a)); unfold trace; cbn [fst bind print emit ret app forallb];
      rewrite ?Hprint; reflexivity. }
  intros doc; apply trace_all_bind; [destruct (negb (truthy doc)); reflexivity|].
  intros _; apply trace_all_bind; [rewrite trace_lift; reflexivity|].
  intros names.
  destruct (route_cases py_str (llm a) (api_key a)
              (String.concat " " (question a)) names)
    as (lines & Htr & [[_ (response & Ho)]|[_ Ho]]);
    rewrite trace_bind, Ho, Htr.
  - rewrite forallb_app, (forallb_map_print p lines Hprint).
    apply (report_run_ok p str_lower py_str frame duckdb avail doc
             (data_path a) (llm a) response Hprint Hs).
  - apply forallb_map_print, Hprint.
Qed.

Lemma stub_tables_expected (avail : bool) (t : string) :
  In t related_tables_stub -> accepts_sampling expected_event avail t.
Proof.
  intros [<-|[<-|[<-|[]]]]; right; repeat split; reflexivity.
Qed.

(* ------------------------------------------------------------------ *)
(** * How [main] ends *)

Lemma main_outcome_loaded
      (str_lower : string -> string) (py_str : pyval -> string)
      (frame : Type) (duckdb : engine frame) (avail : bool)
      (fs : string -> read_outcome) (a : args) (doc : pyval)
      (names : list pyval) :
  fs (catalog a) = ReadOk doc ->
  truthy doc = true ->
  get_table_names doc = Ok names ->
  (backend_ready (llm a) (api_key a) = false ->
   outcome_of (main str_lower py_str avail duckdb fs a) = Exit 1%Z) /\
  (backend_ready (llm a) (api_key a) = true ->
   never_exits (main str_lower py_str avail duckdb fs a) = true).
Proof.
  intros Hfs Ht Hn.
  rewrite (main_loaded str_lower py_str frame duckdb avail fs a doc names Hfs Ht Hn).
  unfold never_exits; rewrite outcome_bind; cbn [outcome_of emit snd].
  rewrite outcome_bind.
  destruct (route_cases py_str (llm a) (api_key a)
              (String.concat " " (question a)) names)
    as (lines & _ & [[Hb (response & Ho)]|[Hb Ho]]); rewrite Ho, Hb;
    split; try discriminate; intros _; [|reflexivity].
  apply (report_run_ok (fun _ => true) str_lower py_str frame duckdb avail doc
           (data_path a) (llm a) response (fun _ => eq_refl)).
  intros t _; destruct avail; [right; repeat split | left; reflexivity].
Qed.

(** X7.  The tables are listed before the backend is checked: when the
    loaded catalog is truthy and [get_table_names] raises on it, [main]
    ends with that uncaught exception right after opening the file,
    whatever the backend and the key -- for [openai] without a key the
    missing-key error is never printed.  A non-empty mapping without
    [nodes] ends every run with [KeyError]. *)
Theorem listing_failure_precedes_backend_check :
  forall (str_lower : string -> string) (py_str : pyval -> string)
         (frame : Type) (duckdb : engine frame) (avail : bool)
         (fs : string -> read_outcome) (a : args) (doc : pyval),
    fs (catalog a) = ReadOk doc ->
    truthy doc = true ->
    (forall e, get_table_names doc = Err e ->
       main str_lower py_str avail duckdb fs a = ([EvOpen (catalog a)], Raise e)) /\
    (forall d, doc = PyDict d -> assoc "nodes" d = None ->
       main str_lower py_str avail duckdb fs a =
       ([EvOpen (catalog a)], Raise (KeyError "nodes"))).
Proof.
  intros str_lower py_str frame duckdb avail fs a doc Hfs Ht.
  assert (Hraise : forall e, get_table_names doc = Err e ->
            main str_lower py_str avail duckdb fs a =
            ([EvOpen (catalog a)], Raise e)).
  { intros e He; unfold main; cbv zeta.
    rewrite (bind_returns _ _ _ _ (load_catalog_ok fs _ _ Hfs)), Ht, He.
    reflexivity. }
  split; [exact Hraise|].
  intros d -> Hno; apply Hraise.
  unfold get_table_names; rewrite Ht, (getitem_nodes_missing _ Hno); reflexivity.
Qed.

Lemma parsed_backend_ready (a : args) :
  parsed_args a = true ->
  backend_ready (llm a) (api_key a) =
  negb ((llm a =? "openai") && negb (opt_truthy (api_key a))).
Proof.
  unfold parsed_args, backend_ready, llm_choices.
  destruct (question a); [discriminate|]; cbn [existsb].
  destruct (llm a =? "openai"); [intros _; destruct (opt_truthy (api_key a)); reflexivity|].
  destruct (llm a =? "ollama"); [reflexivity|].
  destruct (llm a =? "debug"); [reflexivity | discriminate].
Qed.

(** When the backend fails its check, [main] ends there. *)
Lemma main_backend_not_ready
      (str_lower : string -> string) (py_str : pyval -> string)
      (frame : Type) (duckdb : engine frame) (avail : bool)
      (fs : string -> read_outcome) (a : args) (doc : pyval)
      (names : list pyval) :
  fs (catalog a) = ReadOk doc ->
  truthy doc = true ->
  get_table_names doc = Ok names ->
  backend_ready (llm a) (api_key a) = false ->
  exists lines,
    main str_lower py_str avail duckdb fs a =
    (EvOpen (catalog a) :: map EvPrint lines, Exit 1%Z).
Proof.
  intros Hfs Ht Hn Hb.
  destruct (route_cases py_str (llm a) (api_key a)
              (String.concat " " (question a)) names)
    as (lines & Htr & [[Hb' _]|[_ Ho]]); [congruence|].
  exists lines.
  rewrite (main_loaded str_lower py_str frame duckdb avail fs a doc names Hfs Ht Hn).
  rewrite bind_emit, trace_bind, outcome_bind, Ho, Htr; reflexivity.
Qed.

(** The ways a run of [main] on a parsed command line can go. *)
Lemma main_cases
      (str_lower : string -> string) (py_str : pyval -> string)
      (frame : Type) (duckdb : engine frame) (avail : bool)
      (fs : string -> read_outcome) (a : args) :
  parsed_args a = true ->
  (exits_early fs a = true /\
   exists lines,
     main str_lower py_str avail duckdb fs a =
     (EvOpen (catalog a) :: map EvPrint lines, Exit 1%Z)) \/
  (exits_early fs a = false /\
   never_exits (main str_lower py_str avail duckdb fs a) = true).
Proof.
  intros Hp; assert (Hready := parsed_backend_ready a Hp).
  unfold exits_early.
  destruct (fs (catalog a)) as [doc| | |msg] eqn:Hfs.
  - destruct (truthy doc) eqn:Ht.
    + destruct (get_table_names doc) as [names|e] eqn:Hn.
      * destruct (main_outcome_loaded str_lower py_str frame duckdb avail fs a
                    doc names Hfs Ht Hn) as [_ Hyes].
        destruct ((llm a =? "openai") && negb (opt_truthy (api_key a)));
          simpl in Hready.
        -- left; split; [reflexivity|].
           apply (main_backend_not_ready str_lower py_str frame duckdb avail fs a
                    doc names Hfs Ht Hn Hready).
        -- right; split; [reflexivity | apply Hyes, Hready].
      * right; split; [reflexivity|].
        unfold main; cbv zeta.
        rewrite (bind_returns _ _ _ _ (load_catalog_ok fs _ _ Hfs)), Ht, Hn.
        reflexivity.
    + left; split; [reflexivity|]; exists [].
      apply (main_not_loaded str_lower py_str frame duckdb avail fs a
               _ _ (load_catalog_ok fs _ _ Hfs) Ht).
  - left; split; [reflexivity|].
    destruct (load_catalog_failed fs (catalog a)) as (line & Hl);
      [rewrite Hfs; reflexivity|].
    exists [line].
    apply (main_not_loaded str_lower py_str frame duckdb avail fs a _ _ Hl eq_refl).
  - left; split; [reflexivity|].
    destruct (load_catalog_failed fs (catalog a)) as (line & Hl);
      [rewrite Hfs; reflexivity|].
    exists [line].
    apply (main_not_loaded str_lower py_str frame duckdb avail fs a _ _ Hl eq_refl).
  - left; split; [reflexivity|].
    destruct (load_catalog_failed fs (catalog a)) as (line & Hl);
      [rewrite Hfs; reflexivity|].
    exists [line].
    apply (main_not_loaded str_lower py_str frame duckdb avail fs a _ _ Hl eq_refl).
Qed.

(** X8.  The exit status of [main] on a parsed command line.  [main]
    calls [sys.exit], always with status 1, exactly when the catalog is not
    loaded or is falsy, or when its tables are listed and the backend is
    openai without a key; every other run returns (status 0) or ends with
    an uncaught exception. *)
Theorem exit_status_of_main :
  forall (str_lower : string -> string) (py_str : pyval -> string)
         (frame : Type) (duckdb : engine frame) (avail : bool)
         (fs : string -> read_outcome) (a : args),
    parsed_args a = true ->
    (exit_code (main str_lower py_str avail duckdb fs a) = Some 1%Z <->
     exits_early fs a = true) /\
    (forall c, outcome_of (main str_lower py_str avail duckdb fs a) = Exit c ->
               c = 1%Z) /\
    (forall c, exit_code (main str_lower py_str avail duckdb fs a) = Some c ->
               c = 0%Z \/ c = 1%Z).
Proof.
  intros str_lower py_str frame duckdb avail fs a Hp.
  destruct (main_cases str_lower py_str frame duckdb avail fs a Hp)
    as [[-> (lines & ->)]|[-> Hne]].
  - unfold exit_code; cbn [outcome_of snd].
    repeat split; intros; try congruence.
    right; congruence.
  - unfold never_exits, exit_code in *.
    destruct (outcome_of (main str_lower py_str avail duckdb fs a));
      try discriminate; repeat split; intros; try discriminate.
    left; congruence.
Qed.

Lemma filter_engine_prints (lines : list string) :
  filter is_engine_event (map EvPrint lines) = [].
Proof. induction lines; [reflexivity | exact IHlines]. Qed.

(** X9.  What [main] asks of the engine, on every parsed command line
    and in every environment, however the run ends.  [main] starts by
    opening the catalog; the only queries it has executed are the sampling
    query and its [DESCRIBE] for customers, orders and products, so no text
    of the catalog, the question, the key or the data path reaches the
    engine; without DuckDB it never touches the engine; and a run that
    ends in [sys.exit] has not touched it either. *)
Theorem main_runs_only_stub_queries :
  forall (str_lower : string -> string) (py_str : pyval -> string)
         (frame : Type) (duckdb : engine frame) (avail : bool)
         (fs : string -> read_outcome) (a : args),
    parsed_args a = true ->
    (exists rest,
        trace (main str_lower py_str avail duckdb fs a) = EvOpen (catalog a) :: rest) /\
    (forall q, In (EvExecute q) (trace (main str_lower py_str avail duckdb fs a)) ->
               In q stub_queries) /\
    (avail = false ->
     filter is_engine_event (trace (main str_lower py_str avail duckdb fs a)) = []) /\
    (forall c, outcome_of (main str_lower py_str avail duckdb fs a) = Exit c ->
       filter is_engine_event (trace (main str_lower py_str avail duckdb fs a)) = []).
Proof.
  intros str_lower py_str frame duckdb avail fs a Hp.
  destruct (main_events expected_event str_lower py_str frame duckdb avail fs a
              (fun _ => eq_refl) (stub_tables_expected avail))
    as (rest & Htr & Hall).
  split; [exists rest; exact Htr|].
  split; [|split].
  - rewrite Htr; intros q [Hq|Hin]; [discriminate|].
    rewrite forallb_forall in Hall; specialize (Hall _ Hin).
    change (existsb (String.eqb q) stub_queries = true) in Hall.
    apply existsb_exists in Hall as (q' & Hq' & Heq).
    apply String.eqb_eq in Heq; subst q'; exact Hq'.
  - intros ->.
    destruct (main_events is_quiet str_lower py_str frame duckdb false fs a
                (fun _ => eq_refl) (fun _ _ => or_introl eq_refl))
      as (rest' & Htr' & Hall').
    rewrite Htr'; cbn [filter is_engine_event].
    apply quiet_no_engine_event, Hall'.
  - intros c Hc.
    destruct (main_cases str_lower py_str frame duckdb avail fs a Hp)
      as [[_ (lines & Hm)]|[_ Hne]].
    + rewrite Hm; cbn [trace fst filter is_engine_event].
      apply filter_engine_prints.
    + unfold never_exits in Hne; rewrite Hc in Hne; discriminate.
Qed.

Lemma ends_with_bind {A B} (e : event) (m : M A) (k : A -> M B) :
  (forall a, ends_with e (k a)) -> ends_with e (bind m k).
Proof.
  intros Hk b; rewrite outcome_bind, trace_bind.
  destruct (outcome_of m) as [a| |]; try discriminate.
  intros Hb; destruct (Hk a b Hb) as (t & ->).
  exists (trace m ++ t)%list; apply app_assoc.
Qed.

(** X11.  A run of [main] that returns has printed the closing line
    last: whatever the input, a normal completion comes with [Done.] as
    the final event and the final line of output. *)
Theorem returning_main_prints_done_last :
  forall (str_lower : string -> string) (py_str : pyval -> string)
         (frame : Type) (duckdb : engine frame) (avail : bool)
         (fs : string -> read_outcome) (a : args),
    outcome_of (main str_lower py_str avail duckdb fs a) = Ret tt ->
    exists t,
      trace (main str_lower py_str avail duckdb fs a) =
      (t ++ [EvPrint done_line])%list /\
      exists before, printed (trace (main str_lower py_str avail duckdb fs a)) =
                     (before ++ [done_line])%list.
Proof.
  intros str_lower py_str frame duckdb avail fs a Hret.
  assert (Hends : ends_with (EvPrint done_line)
                    (main str_lower py_str avail duckdb fs a)).
  { unfold main; cbv zeta.
    repeat (apply ends_with_bind; intros ?).
    match goal with |- ends_with _ (let (_, _) := ?x in _) => destruct x end.
    repeat (apply ends_with_bind; intros ?).
    intros u _; exists []; reflexivity. }
  destruct (Hends tt Hret) as (t & Ht).
  exists t; split; [exact Ht|].
  rewrite Ht; clear.
  induction t as [|e t IH]; simpl.
  - exists []; reflexivity.
  - destruct IH as (before & Hb); destruct e; rewrite Hb;
      (exists before; reflexivity) || (exists (line :: before); reflexivity).
Qed.

(* ------------------------------------------------------------------ *)
(** * The report on one table *)

Lemma bind_eq {A B} (m : M A) (k : A -> M B) (t1 t2 : list event) (a : A)
      (o : outcome B) :
  m = (t1, Ret a) -> k a = (t2, o) -> bind m k = ((t1 ++ t2)%list, o).
Proof. intros -> Hk; unfold bind; rewrite Hk; reflexivity. Qed.

Lemma bind_raises {A B} (m : M A) (k : A -> M B) (t : list event) (e : exn) :
  m = (t, Raise e) -> bind m k = (t, Raise e).
Proof. intros ->; reflexivity. Qed.

Lemma get_default_attr (v : pyval) (k : string) (default : pyval) :
  is_dict v = true ->
  get_default v k default =
  Ok (match node_attr k v with Some x => x | None => default end).
Proof.
  destruct v; simpl; try discriminate; intros _.
  destruct (assoc k d); reflexivity.
Qed.

Lemma sampling_eta (frame : Type) (duckdb : engine frame) (avail : bool)
      (table_name path : string) :
  get_sample_data_duckdb avail duckdb table_name path =
  (trace (get_sample_data_duckdb avail duckdb table_name path),
   Ret (returned_text (get_sample_data_duckdb avail duckdb table_name path))) /\
  get_table_schema_duckdb avail duckdb table_name path =
  (trace (get_table_schema_duckdb avail duckdb table_name path),
   Ret (returned_text (get_table_schema_duckdb avail duckdb table_name path))).
Proof.
  destruct (sampling_returns frame duckdb avail table_name path)
    as [(t1 & s1 & ->) (t2 & s2 & ->)]; split; reflexivity.
Qed.

Lemma section_run (title text : string) :
  (if negb (text =? "") then bind (print title) (fun _ => print text)
   else ret tt) = (section_lines title text, Ret tt).
Proof. unfold section_lines; destruct (negb (text =? "")); reflexivity. Qed.

#[local] Abbreviation print_column py_str :=
  (fun column : string * pyval =>
     let (column_name, column_info) := column in
     bind (lift (getitem column_info "dtype")) (fun dtype =>
     bind (lift (get_default column_info "description" (PyStr "No description.")))
          (fun description =>
     print ("    " ++ column_name ++ ": " ++ format_value py_str dtype ++ " - "
            ++ format_value py_str description)))).

Lemma print_column_valid (py_str : pyval -> string) (column : string * pyval) :
  valid_column (snd column) = true ->
  print_column py_str column = ([EvPrint (column_line py_str column)], Ret tt).
Proof.
  destruct column as [column_name column_info]; unfold valid_column, has_key; simpl.
  destruct (node_attr "dtype" column_info) as [dtype|] eqn:Hd; [intros _|discriminate].
  rewrite (getitem_node_attr _ _ _ Hd).
  rewrite (get_default_attr _ "description" _ (node_attr_is_dict _ _ _ Hd)).
  unfold column_line; simpl fst; simpl snd; rewrite Hd; reflexivity.
Qed.

Lemma columns_loop_valid (py_str : pyval -> string)
      (cols : list (string * pyval)) :
  forallb valid_column (map snd cols) = true ->
  for_each cols (print_column py_str) =
  (map (fun c => EvPrint (column_line py_str c)) cols, Ret tt).
Proof.
  induction cols as [|c cols IH]; intros H; [reflexivity|].
  simpl in H; apply andb_prop in H as [Hc Hcols].
  cbn [for_each map].
  apply (bind_eq _ _ [_] _ tt); [apply print_column_valid, Hc | apply IH, Hcols].
Qed.

Lemma columns_loop_raises (py_str : pyval -> string)
      (before after : list (string * pyval)) (column : string * pyval) (e : exn) :
  forallb valid_column (map snd before) = true ->
  lift (getitem (snd column) "dtype") = ([], Raise e) ->
  for_each (before ++ column :: after)%list (print_column py_str) =
  (map (fun c => EvPrint (column_line py_str c)) before, Raise e).
Proof.
  intros Hb He; induction before as [|c before IH].
  - destruct column as [cn ci]; cbn [app for_each map].
    apply bind_raises; simpl in He.
    apply bind_raises; exact He.
  - simpl in Hb; apply andb_prop in Hb as [Hc Hrest].
    cbn [app for_each map].
    apply (bind_eq _ _ [_] _ tt); [apply print_column_valid, Hc | apply IH, Hrest].
Qed.

Lemma found_node_named (str_lower : string -> string) (doc : pyval)
      (q : string) (node : pyval) :
  get_table_info str_lower doc q = Ok node ->
  truthy node = true ->
  exists s, node_attr "name" node = Some (PyStr s).
Proof.
  unfold get_table_info.
  destruct (negb (truthy doc)).
  - intros H; injection H as <-; discriminate.
  - destruct (getitem doc "nodes") as [ns|e]; [simpl|discriminate].
    destruct (values ns) as [vs|e]; [simpl|discriminate].
    intros H Ht; destruct (get_table_info_loop_sound _ _ _ _ H)
      as [(-> & _)|(before & after & _ & _ & _ & Hm)]; [discriminate|].
    destruct (name_matches_inv _ _ _ Hm) as (s & Hs & _); exists s; exact Hs.
Qed.

Section TableReport.

Variable str_lower : string -> string.
Variable py_str : pyval -> string.
Variable frame : Type.
Variable duckdb : engine frame.
Variable avail : bool.

#[local] Abbreviation report := (report_table str_lower py_str avail duckdb).
#[local] Abbreviation sample t p := (get_sample_data_duckdb avail duckdb t p).
#[local] Abbreviation schema t p := (get_table_schema_duckdb avail duckdb t p).

Lemma report_table_not_found (doc v : pyval) (path table_name : string) :
  get_table_info str_lower doc table_name = Ok v ->
  truthy v = false ->
  report doc path table_name = ([EvPrint (not_found_line table_name)], Ret tt).
Proof.
  intros Hi Ht; unfold report_table; rewrite Hi; unfold lift.
  rewrite bind_ret_l, Ht; reflexivity.
Qed.

Lemma report_table_raises (doc : pyval) (path table_name : string) (e : exn) :
  get_table_info str_lower doc table_name = Err e ->
  report doc path table_name = ([], Raise e).
Proof. intros Hi; unfold report_table; rewrite Hi; reflexivity. Qed.

(** The report up to the column loop, for a found node. *)
Lemma report_table_header (doc node : pyval) (path table_name : string)
      (t : list event) (o : outcome unit) :
  get_table_info str_lower doc table_name = Ok node ->
  truthy node = true ->
  bind (lift (c <- getitem node "columns" ;; items c)%res) (fun columns =>
  bind (for_each columns (print_column py_str)) (fun _ =>
  bind (sample table_name path) (fun sample_data =>
  bind (if negb (sample_data =? "") then
          bind (print (nl ++ "  Sample Data (DuckDB):")) (fun _ => print sample_data)
        else ret tt) (fun _ =>
  bind (schema table_name path) (fun table_schema =>
  if negb (table_schema =? "") then
    bind (print (nl ++ "  Table Schema (DuckDB):")) (fun _ => print table_schema)
  else ret tt))))) = (t, o) ->
  report doc path table_name = ((table_header py_str table_name node ++ t)%list, o).
Proof.
  intros Hi Ht Hrest.
  destruct (found_node_named _ _ _ _ Hi Ht) as (s & Hname).
  unfold report_table; rewrite Hi; unfold lift at 1.
  rewrite bind_ret_l, Ht.
  rewrite (get_default_attr node "description" _ (node_attr_is_dict _ _ _ Hname)).
  unfold lift at 1.
  apply (bind_eq _ _ [_] _ tt); [reflexivity|].
  rewrite bind_ret_l.
  apply (bind_eq _ _ [_] _ tt); [reflexivity|].
  apply (bind_eq _ _ [_] _ tt); [reflexivity|].
  exact Hrest.
Qed.

Lemma report_table_found (doc node : pyval) (path table_name : string)
      (cols : list (string * pyval)) :
  get_table_info str_lower doc table_name = Ok node ->
  node_attr "columns" node = Some (PyDict cols) ->
  forallb valid_column (map snd cols) = true ->
  report doc path table_name =
  ((table_header py_str table_name node
    ++ map (fun c => EvPrint (column_line py_str c)) cols
    ++ trace (sample table_name path)
    ++ section_lines (nl ++ "  Sample Data (DuckDB):")
                     (returned_text (sample table_name path))
    ++ trace (schema table_name path)
    ++ section_lines (nl ++ "  Table Schema (DuckDB):")
                     (returned_text (schema table_name path)))%list,
   Ret tt).
Proof.
  intros Hi Hc Hv.
  apply report_table_header;
    [exact Hi | apply (node_attr_truthy _ _ _ Hc) |].
  rewrite (getitem_node_attr _ _ _ Hc); cbn [res_bind items lift].
  rewrite bind_ret_l.
  destruct (sampling_eta frame duckdb avail table_name path) as [Hs Hsc].
  eapply bind_eq; [apply columns_loop_valid, Hv|].
  eapply bind_eq; [exact Hs|].
  eapply bind_eq; [apply section_run|].
  eapply bind_eq; [exact Hsc|].
  apply section_run.
Qed.

End TableReport.

(** X13.  The report on one table of a catalog in the expected format.
    When no node matches the table name, one line says so.  Otherwise the
    first matching node is reported: its name line, its description or the
    placeholder [No description available.], one line per column in
    mapping order with the column's dtype and its description or
    [No description.], then the sample data and the schema, each under its
    title and each left out when the text is empty.  The report returns in
    both cases, whatever the engine does. *)
Theorem report_table_spec :
  forall (str_lower : string -> string) (py_str : pyval -> string)
         (frame : Type) (duckdb : engine frame) (avail : bool)
         (doc : pyval) (nodes : list pyval) (path table_name : string),
    catalog_nodes doc = Some nodes ->
    forallb printable_node nodes = true ->
    report_table str_lower py_str avail duckdb doc path table_name =
    match find (name_matches str_lower table_name) nodes with
    | None => ([EvPrint (not_found_line table_name)], Ret tt)
    | Some node =>
        ((table_header py_str table_name node
          ++ map (fun c => EvPrint (column_line py_str c)) (columns_of node)
          ++ trace (get_sample_data_duckdb avail duckdb table_name path)
          ++ section_lines (nl ++ "  Sample Data (DuckDB):")
               (returned_text (get_sample_data_duckdb avail duckdb table_name path))
          ++ trace (get_table_schema_duckdb avail duckdb table_name path)
          ++ section_lines (nl ++ "  Table Schema (DuckDB):")
               (returned_text (get_table_schema_duckdb avail duckdb table_name path)))%list,
         Ret tt)
    end.
Proof.
  intros str_lower py_str frame duckdb avail doc nodes path table_name Hn Hp.
  assert (Hi : get_table_info str_lower doc table_name =
               Ok (first_match str_lower nodes table_name)).
  { rewrite (get_table_info_nodes str_lower _ _ table_name Hn).
    apply get_table_info_loop_named, forallb_valid_named,
      forallb_printable_valid, Hp. }
  unfold first_match in Hi.
  destruct (find (name_matches str_lower table_name) nodes) as [node|] eqn:Hf.
  - apply find_some in Hf as [Hin _].
    rewrite forallb_forall in Hp.
    destruct (printable_node_inv _ (Hp node Hin)) as (_ & cols & Hc & Hv).
    unfold columns_of; rewrite Hc.
    apply (report_table_found str_lower py_str frame duckdb avail doc node
             path table_name cols Hi Hc Hv).
  - apply (report_table_not_found str_lower py_str frame duckdb avail doc PyNone
             path table_name Hi eq_refl).
Qed.

(** X6.  The report on a found node that is not in the expected format
    ends with an uncaught exception, after the lines already printed and
    before any sampling: [KeyError] when the node has no [columns],
    [AttributeError] when [columns] is not a mapping, and [KeyError] at
    the first column without a [dtype], the columns before it having been
    printed. *)
Theorem report_table_crashes :
  forall (str_lower : string -> string) (py_str : pyval -> string)
         (frame : Type) (duckdb : engine frame) (avail : bool)
         (doc node : pyval) (path table_name : string),
    get_table_info str_lower doc table_name = Ok node ->
    truthy node = true ->
    (has_key "columns" node = false ->
     report_table str_lower py_str avail duckdb doc path table_name =
     (table_header py_str table_name node, Raise (KeyError "columns"))) /\
    (forall c, node_attr "columns" node = Some c -> is_dict c = false ->
     report_table str_lower py_str avail duckdb doc path table_name =
     (table_header py_str table_name node, Raise AttributeError)) /\
    (forall before column after,
        node_attr "columns" node = Some (PyDict (before ++ column :: after)%list) ->
        forallb valid_column (map snd before) = true ->
        is_dict (snd column) = true ->
        has_key "dtype" (snd column) = false ->
        report_table str_lower py_str avail duckdb doc path table_name =
        ((table_header py_str table_name node
          ++ map (fun c => EvPrint (column_line py_str c)) before)%list,
         Raise (KeyError "dtype"))).
Proof.
  intros str_lower py_str frame duckdb avail doc node path table_name Hi Ht.
  destruct (found_node_named _ _ _ _ Hi Ht) as (s & Hname).
  assert (Hd := node_attr_is_dict _ _ _ Hname).
  split; [|split].
  - intros Hk.
    rewrite <- (app_nil_r (table_header py_str table_name node)).
    apply report_table_header; [exact Hi | exact Ht |].
    rewrite (getitem_missing _ _ Hd Hk); reflexivity.
  - intros c Hc Hnd.
    rewrite <- (app_nil_r (table_header py_str table_name node)).
    apply report_table_header; [exact Hi | exact Ht |].
    rewrite (getitem_node_attr _ _ _ Hc); destruct c; try discriminate; reflexivity.
  - intros before column after Hc Hv Hcd Hk.
    apply report_table_header; [exact Hi | exact Ht |].
    rewrite (getitem_node_attr _ _ _ Hc); cbn [res_bind items lift].
    rewrite bind_ret_l.
    apply bind_raises, columns_loop_raises; [exact Hv|].
    rewrite (getitem_missing _ _ Hcd Hk); reflexivity.
Qed.

(* ------------------------------------------------------------------ *)
(** * Whole runs past the router *)

Lemma M_eta {A} (m : M A) : m = (trace m, outcome_of m).
Proof. destruct m; reflexivity. Qed.

(** Past a ready backend, [main] is the catalog opening, the router's
    lines, the response and the report. *)
Lemma main_routed
      (str_lower : string -> string) (py_str : pyval -> string)
      (frame : Type) (duckdb : engine frame) (avail : bool)
      (fs : string -> read_outcome) (a : args) (doc : pyval)
      (names : list pyval) :
  fs (catalog a) = ReadOk doc ->
  truthy doc = true ->
  get_table_names doc = Ok names ->
  backend_ready (llm a) (api_key a) = true ->
  exists lines response,
    route py_str (llm a) (api_key a) (String.concat " " (question a)) names =
    (map EvPrint lines, Ret (response, related_tables_stub)) /\
    main str_lower py_str avail duckdb fs a =
    (EvOpen (catalog a)
       :: (map EvPrint lines
           ++ EvPrint response
           :: trace (bind (for_each related_tables_stub
                             (report_table str_lower py_str avail duckdb doc
                                           (data_path a)))
                          (fun _ => bind (query_advice (llm a))
                                         (fun _ => print (nl ++ "Done.")))))%list,
     outcome_of (bind (for_each related_tables_stub
                         (report_table str_lower py_str avail duckdb doc
                                       (data_path a)))
                      (fun _ => bind (query_advice (llm a))
                                     (fun _ => print (nl ++ "Done."))))).
Proof.
  intros Hfs Ht Hn Hb.
  destruct (route_cases py_str (llm a) (api_key a)
              (String.concat " " (question a)) names)
    as (lines & Htr & [[_ (response & Ho)]|[Hb' _]]); [|congruence].
  assert (Hr : route py_str (llm a) (api_key a)
                 (String.concat " " (question a)) names =
               (map EvPrint lines, Ret (response, related_tables_stub))).
  { rewrite (M_eta (route _ _ _ _ _)), Htr, Ho; reflexivity. }
  exists lines, response; split; [exact Hr|].
  rewrite (main_loaded str_lower py_str frame duckdb avail fs a doc names Hfs Ht Hn).
  rewrite bind_emit, (bind_returns _ _ _ _ Hr); cbv iota beta.
  change (print response) with (emit (EvPrint response)).
  rewrite !bind_emit; cbn [trace outcome_of fst snd]; reflexivity.
Qed.

Lemma for_each_stops {A} (before after : list A) (x : A) (body : A -> M unit)
      (e : exn) :
  (forall y, In y before -> outcome_of (body y) = Ret tt) ->
  outcome_of (body x) = Raise e ->
  for_each (before ++ x :: after)%list body =
  ((concat (map (fun y => trace (body y)) before) ++ trace (body x))%list,
   Raise e).
Proof.
  intros Hb Hx; induction before as [|y before IH]; cbn [app for_each map concat].
  - apply bind_raises; rewrite (M_eta (body x)), Hx; reflexivity.
  - rewrite <- app_assoc.
    apply (bind_eq _ _ _ _ tt).
    + rewrite (M_eta (body y)), (Hb y (or_introl eq_refl)); reflexivity.
    + apply IH; intros z Hz; apply Hb; right; exact Hz.
Qed.

(** X14.  [main] catches nothing from the report: with the catalog
    loaded, its tables listed and the backend ready, if the reports of the
    related tables before some table return and the report of that table
    raises, [main] ends with that exception and no exit status of its own.
    Its events are the opening of the catalog, the router's lines, the
    response, the reports that returned and the events of the failing
    report up to the exception, and nothing after them: the remaining
    tables, the query advice and the closing line are not reached. *)
Theorem main_stops_at_first_failing_table :
  forall (str_lower : string -> string) (py_str : pyval -> string)
         (frame : Type) (duckdb : engine frame) (avail : bool)
         (fs : string -> read_outcome) (a : args) (doc : pyval)
         (names : list pyval) (before after : list string) (x : string)
         (e : exn),
    fs (catalog a) = ReadOk doc ->
    truthy doc = true ->
    get_table_names doc = Ok names ->
    backend_ready (llm a) (api_key a) = true ->
    related_tables_stub = (before ++ x :: after)%list ->
    (forall y, In y before ->
       outcome_of (report_table str_lower py_str avail duckdb doc (data_path a) y)
       = Ret tt) ->
    outcome_of (report_table str_lower py_str avail duckdb doc (data_path a) x)
    = Raise e ->
    exit_code (main str_lower py_str avail duckdb fs a) = None /\
    exists lines response,
      route py_str (llm a) (api_key a) (String.concat " " (question a)) names =
      (map EvPrint lines, Ret (response, related_tables_stub)) /\
      main str_lower py_str avail duckdb fs a =
      (EvOpen (catalog a)
         :: (map EvPrint lines
             ++ EvPrint response
             :: concat (map (fun y =>
                               trace (report_table str_lower py_str avail duckdb
                                                   doc (data_path a) y))
                            before)
             ++ trace (report_table str_lower py_str avail duckdb doc
                                    (data_path a) x))%list,
       Raise e).
Proof.
  intros str_lower py_str frame duckdb avail fs a doc names before after x e
         Hfs Ht Hn Hb Hstub Hbefore Hx.
  destruct (main_routed str_lower py_str frame duckdb avail fs a doc names
              Hfs Ht Hn Hb) as (lines & response & Hr & Hm).
  assert (Hrep : bind (for_each related_tables_stub
                         (report_table str_lower py_str avail duckdb doc
                                       (data_path a)))
                      (fun _ => bind (query_advice (llm a))
                                     (fun _ => print (nl ++ "Done."))) =
                 ((concat (map (fun y =>
                                  trace (report_table str_lower py_str avail duckdb
                                                      doc (data_path a) y))
                               before)
                   ++ trace (report_table str_lower py_str avail duckdb doc
                                          (data_path a) x))%list,
                  Raise e)).
  { apply bind_raises; rewrite Hstub.
    apply (for_each_stops before after x _ e Hbefore Hx). }
  rewrite Hrep in Hm; cbn [trace outcome_of fst snd] in Hm.
  split; [rewrite Hm; reflexivity|].
  exists lines, response; split; [exact Hr | exact Hm].
Qed.

Lemma forallb_any (t : list event) : forallb (fun _ => true) t = true.
Proof. induction t; [reflexivity | exact IHt]. Qed.

Lemma report_table_printable_returns
      (str_lower : string -> string) (py_str : pyval -> string)
      (frame : Type) (duckdb : engine frame) (avail : bool)
      (doc : pyval) (path table_name : string) :
  printable_catalog doc = true ->
  returns_with (fun _ => true)
    (report_table str_lower py_str avail duckdb doc path table_name) tt.
Proof.
  unfold printable_catalog.
  destruct (catalog_nodes doc) as [nodes|] eqn:Hn; [intros Hp|discriminate].
  assert (Hi : get_table_info str_lower doc table_name =
               Ok (first_match str_lower nodes table_name)).
  { rewrite (get_table_info_nodes str_lower _ _ table_name Hn).
    apply get_table_info_loop_named, forallb_valid_named,
      forallb_printable_valid, Hp. }
  destruct (first_match_cases str_lower table_name nodes) as [Hnone|[Hin _]].
  - rewrite Hnone in Hi.
    rewrite (report_table_not_found str_lower py_str frame duckdb avail doc PyNone
               path table_name Hi eq_refl).
    eexists; split; [reflexivity | apply forallb_any].
  - rewrite forallb_forall in Hp.
    destruct (printable_node_inv _ (Hp _ Hin)) as (_ & cols & Hc & Hv).
    rewrite (report_table_found str_lower py_str frame duckdb avail doc _
               path table_name cols Hi Hc Hv).
    eexists; split; [reflexivity | apply forallb_any].
Qed.

(** X4.  Sampling never changes how [main] ends: on a catalog in the
    expected format with a backend that passes its check, [main] returns
    (exit status 0) whether or not DuckDB is available and whatever the
    engine does -- connection failures, failing queries and failing
    renderings included. *)
Theorem main_completes_whatever_the_engine_does :
  forall (str_lower : string -> string) (py_str : pyval -> string)
         (frame : Type) (duckdb : engine frame) (avail : bool)
         (fs : string -> read_outcome) (a : args) (doc : pyval),
    fs (catalog a) = ReadOk doc ->
    printable_catalog doc = true ->
    backend_ready (llm a) (api_key a) = true ->
    outcome_of (main str_lower py_str avail duckdb fs a) = Ret tt /\
    exit_code (main str_lower py_str avail duckdb fs a) = Some 0%Z.
Proof.
  intros str_lower py_str frame duckdb avail fs a doc Hfs Hp Hb.
  assert (Hp' := Hp); unfold printable_catalog in Hp'.
  destruct (catalog_nodes doc) as [nodes|] eqn:Hn; [|discriminate].
  destruct (catalog_nodes_inv _ _ Hn) as [Ht _].
  assert (Hnames : get_table_names doc =
                   Ok (map node_name (filter is_queryable nodes))).
  { rewrite (get_table_names_nodes _ _ Hn).
    apply (get_table_names_loop_valid _ (forallb_printable_valid _ Hp')). }
  destruct (main_routed str_lower py_str frame duckdb avail fs a doc _
              Hfs Ht Hnames Hb) as (lines & response & _ & Hm).
  assert (Hr : returns_with (fun _ => true)
                 (bind (for_each related_tables_stub
                          (report_table str_lower py_str avail duckdb doc
                                        (data_path a)))
                       (fun _ => bind (query_advice (llm a))
                                      (fun _ => print (nl ++ "Done.")))) tt).
  { eapply returns_bind.
    - apply returns_for_each; intros t _.
      apply report_table_printable_returns, Hp.
    - eapply returns_bind.
      + destruct (query_advice_returns (llm a)) as (t & Hq & _).
        exists t; split; [exact Hq | apply forallb_any].
      + eexists; split; reflexivity. }
  destruct Hr as (t & Hr & _).
  assert (Ho : outcome_of (main str_lower py_str avail duckdb fs a) = Ret tt)
    by (rewrite Hm, Hr; reflexivity).
  split; [exact Ho|]; unfold exit_code; rewrite Ho; reflexivity.
Qed.

(** X5.  Related tables that are not in the catalog are not fatal and
    are not sampled.  On a catalog in the expected format in which no node
    is named customers, orders or products up to case -- the catalog with
    no node at all included -- the whole run is: the catalog is opened, the
    router prints its lines and its response, one not-found line is printed
    per table in order, then the query advice and the closing line; [main]
    returns and the engine is never reached, available or not. *)
Theorem missing_tables_are_reported :
  forall (str_lower : string -> string) (py_str : pyval -> string)
         (frame : Type) (duckdb : engine frame) (avail : bool)
         (fs : string -> read_outcome) (a : args) (doc : pyval)
         (nodes : list pyval),
    fs (catalog a) = ReadOk doc ->
    catalog_nodes doc = Some nodes ->
    forallb valid_node nodes = true ->
    (forall n t, In n nodes -> In t related_tables_stub ->
                 name_matches str_lower t n = false) ->
    backend_ready (llm a) (api_key a) = true ->
    exists lines response,
      route py_str (llm a) (api_key a) (String.concat " " (question a))
            (map node_name (filter is_queryable nodes)) =
      (map EvPrint lines, Ret (response, related_tables_stub)) /\
      main str_lower py_str avail duckdb fs a =
      (EvOpen (catalog a)
         :: (map EvPrint lines
             ++ [EvPrint response;
                 EvPrint "Table 'customers' not found in catalog.";
                 EvPrint "Table 'orders' not found in catalog.";
                 EvPrint "Table 'products' not found in catalog."]
             ++ trace (query_advice (llm a))
             ++ [EvPrint done_line])%list,
       Ret tt).
Proof.
  intros str_lower py_str frame duckdb avail fs a doc nodes Hfs Hn Hv Hno Hb.
  destruct (catalog_nodes_inv _ _ Hn) as [Ht _].
  assert (Hnames : get_table_names doc =
                   Ok (map node_name (filter is_queryable nodes))).
  { rewrite (get_table_names_nodes _ _ Hn).
    apply (get_table_names_loop_valid _ Hv). }
  destruct (main_routed str_lower py_str frame duckdb avail fs a doc _
              Hfs Ht Hnames Hb) as (lines & response & Hr & Hm).
  exists lines, response; split; [exact Hr|].
  assert (Hnf : forall t, In t related_tables_stub ->
            report_table str_lower py_str avail duckdb doc (data_path a) t =
            ([EvPrint (not_found_line t)], Ret tt)).
  { intros t Hin.
    apply (report_table_not_found str_lower py_str frame duckdb avail doc PyNone);
      [|reflexivity].
    rewrite (get_table_info_nodes str_lower _ _ t Hn).
    rewrite (get_table_info_loop_named str_lower t nodes (forallb_valid_named _ Hv)).
    rewrite (first_match_none str_lower t nodes); [reflexivity|].
    intros n Hn'; apply Hno; assumption. }
  assert (Hq : query_advice (llm a) = (trace (query_advice (llm a)), Ret tt)).
  { destruct (query_advice_returns (llm a)) as (t & Hq & _); rewrite Hq; reflexivity. }
  assert (Hrep : bind (for_each related_tables_stub
                         (report_table str_lower py_str avail duckdb doc
                                       (data_path a)))
                      (fun _ => bind (query_advice (llm a))
                                     (fun _ => print (nl ++ "Done."))) =
                 ((([EvPrint (not_found_line "customers")]
                    ++ ([EvPrint (not_found_line "orders")]
                        ++ ([EvPrint (not_found_line "products")] ++ [])))
                   ++ (trace (query_advice (llm a)) ++ [EvPrint done_line]))%list,
                  Ret tt)).
  { eapply bind_eq.
    - unfold related_tables_stub; cbn [for_each].
      eapply bind_eq; [apply Hnf; simpl; auto|].
      eapply bind_eq; [apply Hnf; simpl; auto|].
      eapply bind_eq; [apply Hnf; simpl; auto|reflexivity].
    - eapply bind_eq; [exact Hq | reflexivity]. }
  rewrite Hm, Hrep; reflexivity.
Qed.

(** X10.  The data path has no effect: two command lines that differ
    only in [--data-path] give the same run of [main], event for event,
    in every environment. *)
Theorem data_path_is_ignored :
  forall (str_lower : string -> string) (py_str : pyval -> string)
         (frame : Type) (duckdb : engine frame) (avail : bool)
         (fs : string -> read_outcome) (a : args) (path : string),
    main str_lower py_str avail duckdb fs (with_data_path a path) =
    main str_lower py_str avail duckdb fs a.
Proof.
  intros str_lower py_str frame duckdb avail fs a path.
  unfold main, with_data_path; cbv zeta; cbn [question catalog llm api_key data_path].
  f_equal.
Qed.

(* ------------------------------------------------------------------ *)
(** * How many sessions a run opens *)

Lemma count_event_app (p : event -> bool) (t1 t2 : list event) :
  count_event p (t1 ++ t2) = count_event p t1 + count_event p t2.
Proof. unfold count_event; rewrite filter_app, length_app; reflexivity. Qed.

Lemma count_bind_le {A B} (p : event -> bool) (m : M A) (k : A -> M B)
      (n1 n2 : nat) :
  count_event p (trace m) <= n1 ->
  (forall a, count_event p (trace (k a)) <= n2) ->
  count_event p (trace (bind m k)) <= n1 + n2.
Proof.
  intros Hm Hk; rewrite trace_bind.
  destruct (outcome_of m) as [a| |]; [|lia|lia].
  rewrite count_event_app; specialize (Hk a); lia.
Qed.

Lemma count_for_each_le {A} (p : event -> bool) (l : list A)
      (body : A -> M unit) (n : nat) :
  (forall x, In x l -> count_event p (trace (body x)) <= n) ->
  count_event p (trace (for_each l body)) <= length l * n.
Proof.
  induction l as [|x rest IH]; intros H; cbn [for_each length].
  - apply Nat.le_0_l.
  - apply (count_bind_le p (body x) (fun _ => for_each rest body) n (length rest * n)).
    + apply H; left; reflexivity.
    + intros _; apply IH; intros y Hy; apply H; right; exact Hy.
Qed.

Lemma count_map_print (lines : list string) :
  count_event is_connect (map EvPrint lines) = 0.
Proof. induction lines; [reflexivity | exact IHlines]. Qed.

Lemma count_lift {A} (p : event -> bool) (r : res A) :
  count_event p (trace (lift r)) <= 0.
Proof. rewrite trace_lift; apply le_n. Qed.

Lemma count_sampling (frame : Type) (duckdb : engine frame) (avail : bool)
      (table_name path : string) :
  count_event is_connect
    (trace (get_sample_data_duckdb avail duckdb table_name path)) <= 1 /\
  count_event is_connect
    (trace (get_table_schema_duckdb avail duckdb table_name path)) <= 1.
Proof.
  destruct (sampling_cases frame duckdb avail table_name path) as [Hs Ht].
  rewrite Hs, Ht; clear Hs Ht.
  destruct avail; [|split; apply Nat.le_0_l].
  destruct (connect duckdb); [split; apply Nat.le_0_l|].
  split.
  - destruct (execute_fetchdf duckdb (sample_query table_name)); apply le_n.
  - destruct (execute_fetchdf duckdb ("DESCRIBE " ++ sample_query table_name));
      apply le_n.
Qed.

Ltac count_steps :=
  repeat first
    [ apply count_lift
    | apply Nat.le_0_l
    | match goal with
      | |- count_event _ (trace (if ?c then _ else _)) <= _ => destruct c
      end
    | match goal with
      | |- count_event ?p (trace (bind ?m ?k)) <= 0 =>
          apply (count_bind_le p m k 0 0); [|intros ?]
      end
    | apply le_n ].

Lemma count_report_table
      (str_lower : string -> string) (py_str : pyval -> string)
      (frame : Type) (duckdb : engine frame) (avail : bool)
      (doc : pyval) (path table_name : string) :
  count_event is_connect
    (trace (report_table str_lower py_str avail duckdb doc path table_name)) <= 2.
Proof.
  destruct (count_sampling frame duckdb avail table_name path) as [Hs Ht].
  unfold report_table.
  eapply (count_bind_le _ _ _ 0 2); [apply count_lift|intros table_info].
  destruct (truthy table_info); [|apply Nat.le_0_l].
  eapply (count_bind_le _ _ _ 0 2); [apply Nat.le_0_l|intros _].
  eapply (count_bind_le _ _ _ 0 2); [apply count_lift|intros description].
  eapply (count_bind_le _ _ _ 0 2); [apply Nat.le_0_l|intros _].
  eapply (count_bind_le _ _ _ 0 2); [apply Nat.le_0_l|intros _].
  eapply (count_bind_le _ _ _ 0 2); [apply count_lift|intros columns].
  eapply (count_bind_le _ _ _ 0 2).
  { apply (Nat.le_trans _ (length columns * 0)); [|lia].
    apply count_for_each_le; intros [column_name column_info] _.
    count_steps. }
  intros _.
  eapply (count_bind_le _ _ _ 1 1); [exact Hs|intros sample_data].
  eapply (count_bind_le _ _ _ 0 1); [count_steps|intros _].
  eapply (count_bind_le _ _ _ 1 0); [exact Ht|intros table_schema].
  count_steps.
Qed.

(** X15.  A run of [main] opens at most six engine sessions, two per
    related table, whatever the command line, the catalog and the engine;
    the report on one table opens at most two. *)
Theorem main_opens_at_most_six_sessions :
  forall (str_lower : string -> string) (py_str : pyval -> string)
         (frame : Type) (duckdb : engine frame) (avail : bool)
         (fs : string -> read_outcome) (a : args),
    count_event is_connect (trace (main str_lower py_str avail duckdb fs a)) <= 6 /\
    (forall doc path table_name,
        count_event is_connect
          (trace (report_table str_lower py_str avail duckdb doc path table_name))
        <= 2).
Proof.
  intros str_lower py_str frame duckdb avail fs a.
  split; [|intros doc path table_name; apply count_report_table].
  unfold main; cbv zeta.
  apply (count_bind_le _ _ _ 0 6).
  { unfold load_catalog; destruct (fs (catalog a)); apply Nat.le_0_l. }
  intros doc.
  apply (count_bind_le _ _ _ 0 6); [destruct (negb (truthy doc)); apply Nat.le_0_l|].
  intros _.
  apply (count_bind_le _ _ _ 0 6); [apply count_lift|intros names].
  destruct (route_cases py_str (llm a) (api_key a)
              (String.concat " " (question a)) names)
    as (lines & Htr & [[_ (response & Ho)]|[_ Ho]]);
    rewrite trace_bind, Ho, Htr.
  - rewrite count_event_app, count_map_print.
    apply (count_bind_le _ _ _ 0 6); [apply Nat.le_0_l|intros _].
    apply (count_bind_le _ _ _ 6 0).
    + apply (count_for_each_le is_connect related_tables_stub _ 2).
      intros t _; apply count_report_table.
    + intros _; unfold query_advice; count_steps.
  - rewrite count_map_print; apply Nat.le_0_l.
Qed.

(* ------------------------------------------------------------------ *)
(** * The further properties at concrete inputs *)

(** X1 on the sample catalog. *)
Lemma get_table_info_sound_witness :
  get_table_info lower_ascii Sample.catalog_doc "ORDERS" = Ok Sample.orders_node /\
  (Sample.orders_node = PyNone \/ truthy Sample.orders_node = true).
Proof.
  split; [reflexivity|].
  destruct (get_table_info_sound lower_ascii Sample.catalog_doc "ORDERS"
              Sample.orders_node eq_refl) as [[H _]|[H _]];
    [left | right]; exact H.
Defined.

(** X2 on the sample catalog and on a document whose node lacks
    [resource_type]. *)
Lemma get_table_names_returns_iff_witness :
  get_table_names Sample.catalog_doc = Ok [PyStr "Customers"; PyStr "orders"] /\
  get_table_names (PyList []) = Ok [].
Proof.
  split.
  - apply (proj2 (get_table_names_returns_iff Sample.catalog_doc
                    [PyStr "Customers"; PyStr "orders"])).
    right; exists Sample.nodes; repeat split.
  - apply (proj2 (get_table_names_returns_iff (PyList []) [])).
    left; split; reflexivity.
Defined.

(** X12: the source node of the sample catalog is not listed but is
    found. *)
Lemma existing_name_is_found_witness :
  is_queryable Sample.raw_node = false /\
  exists found,
    get_table_info lower_ascii Sample.catalog_doc "raw_orders" = Ok found /\
    In found Sample.nodes /\
    name_matches lower_ascii "raw_orders" found = true /\
    truthy found = true.
Proof.
  split; [reflexivity|].
  apply (proj1 (existing_name_is_found lower_ascii Sample.catalog_doc Sample.nodes
                  eq_refl eq_refl) Sample.raw_node "raw_orders");
    [right; left; reflexivity | reflexivity].
Defined.

(** X3 with an engine that cannot see the table's files. *)
Lemma sampling_session_discipline_witness :
  open_sessions
    (trace (get_sample_data_duckdb true Sample.empty_dir_engine "orders" "data")) 0
  = 1.
Proof.
  apply (proj2 (proj2 (proj2 (proj2 (proj1
           (sampling_session_discipline Sample.rows Sample.empty_dir_engine true
              "orders" "data")))))).
  split; [reflexivity|]; split; [exists tt; reflexivity|].
  exists Sample.no_files; reflexivity.
Defined.

(** X4 on the sample catalog with an engine whose queries all fail, and
    with one that cannot connect. *)
Lemma main_completes_whatever_the_engine_does_witness :
  exit_code (main lower_ascii Sample.py_str true Sample.empty_dir_engine
               (Sample.fs_with Sample.catalog_doc) (Sample.cli "ollama" None))
  = Some 0%Z /\
  exit_code (main lower_ascii Sample.py_str true Cases.offline_engine
               (Sample.fs_with Sample.catalog_doc) (Sample.cli "openai" (Some "sk-1")))
  = Some 0%Z.
Proof.
  split.
  - apply (main_completes_whatever_the_engine_does lower_ascii Sample.py_str
             Sample.rows Sample.empty_dir_engine true
             (Sample.fs_with Sample.catalog_doc) (Sample.cli "ollama" None)
             Sample.catalog_doc eq_refl eq_refl eq_refl).
  - apply (main_completes_whatever_the_engine_does lower_ascii Sample.py_str
             Sample.rows Cases.offline_engine true
             (Sample.fs_with Sample.catalog_doc)
             (Sample.cli "openai" (Some "sk-1"))
             Sample.catalog_doc eq_refl eq_refl eq_refl).
Defined.

(** X5 on a catalog holding only an inventory table, with a working
    engine: nothing is sampled. *)
Lemma missing_tables_are_reported_witness :
  main lower_ascii Sample.py_str true Sample.working_engine
       (Sample.fs_with Cases.inventory_doc) (Sample.cli "debug" None) =
  ([EvOpen "target/catalog.json";
    EvPrint "Debug mode:  No LLM call.";
    EvPrint "Debug response:  The relevant tables are: customers, orders, and products.";
    EvPrint "Table 'customers' not found in catalog.";
    EvPrint "Table 'orders' not found in catalog.";
    EvPrint "Table 'products' not found in catalog.";
    EvPrint "Debug:  Try this query: SELECT c.name, o.order_date FROM customers c JOIN orders o ON c.customer_id = o.customer_id";
    EvPrint done_line],
   Ret tt).
Proof.
  destruct (missing_tables_are_reported lower_ascii Sample.py_str Sample.rows
              Sample.working_engine true (Sample.fs_with Cases.inventory_doc)
              (Sample.cli "debug" None) Cases.inventory_doc [Cases.inventory_node]
              eq_refl eq_refl eq_refl)
    as (lines & response & Hr & Hm).
  - intros n t [<-|[]] [<-|[<-|[<-|[]]]]; reflexivity.
  - reflexivity.
  - rewrite Hm; injection Hr as <- <-; reflexivity.
Defined.

(** X6 on nodes without [columns], with a list for [columns], and with a
    column without [dtype]. *)
Lemma report_table_crashes_witness :
  outcome_of (report_table lower_ascii Sample.py_str true Sample.working_engine
                Cases.bare_orders_doc "data" "orders")
  = Raise (KeyError "columns") /\
  outcome_of (report_table lower_ascii Sample.py_str true Sample.working_engine
                Cases.listed_columns_doc "data" "customers")
  = Raise AttributeError /\
  report_table lower_ascii Sample.py_str true Sample.working_engine
    Cases.half_typed_doc "data" "customers"
  = ([EvPrint (nl ++ "Table: customers");
      EvPrint "  Description: No description available.";
      EvPrint "  Columns:";
      EvPrint "    id: INTEGER - No description."],
     Raise (KeyError "dtype")).
Proof.
  split; [|split].
  - rewrite (proj1 (report_table_crashes lower_ascii Sample.py_str Sample.rows
                      Sample.working_engine true Cases.bare_orders_doc
                      Cases.bare_orders "data" "orders" eq_refl eq_refl) eq_refl).
    reflexivity.
  - rewrite (proj1 (proj2 (report_table_crashes lower_ascii Sample.py_str
                      Sample.rows Sample.working_engine true
                      Cases.listed_columns_doc Cases.listed_columns "data"
                      "customers" eq_refl eq_refl))
               (PyList [PyStr "id"]) eq_refl eq_refl).
    reflexivity.
  - rewrite (proj2 (proj2 (report_table_crashes lower_ascii Sample.py_str
                      Sample.rows Sample.working_engine true
                      Cases.half_typed_doc Cases.half_typed "data"
                      "customers" eq_refl eq_refl))
               [("id", Sample.column "INTEGER")]
               ("name", PyDict [("description", PyStr "full name")])
               [("email", Sample.column "VARCHAR")]
               eq_refl eq_refl eq_refl eq_refl).
    reflexivity.
Defined.

(** X7 on a document without [nodes], with the openai backend and no
    key. *)
Lemma listing_failure_precedes_backend_check_witness :
  main lower_ascii Sample.py_str true Sample.working_engine
       (Sample.fs_with Sample.no_nodes_doc) (Sample.cli "openai" None) =
  ([EvOpen "target/catalog.json"], Raise (KeyError "nodes")) /\
  main lower_ascii Sample.py_str true Sample.working_engine
       (Sample.fs_with Sample.untyped_doc) (Sample.cli "openai" None) =
  ([EvOpen "target/catalog.json"], Raise (KeyError "resource_type")).
Proof.
  split.
  - apply (proj2 (listing_failure_precedes_backend_check lower_ascii Sample.py_str
                    Sample.rows Sample.working_engine true
                    (Sample.fs_with Sample.no_nodes_doc) (Sample.cli "openai" None)
                    Sample.no_nodes_doc eq_refl eq_refl)
             [("metadata", PyDict [])]); reflexivity.
  - apply (proj1 (listing_failure_precedes_backend_check lower_ascii Sample.py_str
                    Sample.rows Sample.working_engine true
                    (Sample.fs_with Sample.untyped_doc) (Sample.cli "openai" None)
                    Sample.untyped_doc eq_refl eq_refl)); reflexivity.
Defined.

(** X8 on parsed command lines: openai without a key, the debug
    backend, a document without [nodes], an empty catalog file. *)
Lemma exit_status_of_main_witness :
  parsed_args (Sample.cli "openai" None) = true /\
  exit_code (main lower_ascii Sample.py_str true Sample.working_engine
               (Sample.fs_with Sample.catalog_doc) (Sample.cli "openai" None))
  = Some 1%Z /\
  exits_early (Sample.fs_with Sample.catalog_doc) (Sample.cli "debug" None) = false /\
  exits_early (Sample.fs_with Sample.no_nodes_doc) (Sample.cli "openai" None) = false /\
  exits_early (Sample.fs_with (PyDict [])) (Sample.cli "debug" None) = true.
Proof.
  split; [reflexivity|]; split; [|repeat split].
  apply (proj2 (proj1 (exit_status_of_main lower_ascii Sample.py_str Sample.rows
                         Sample.working_engine true
                         (Sample.fs_with Sample.catalog_doc)
                         (Sample.cli "openai" None) eq_refl))).
  reflexivity.
Defined.

(** X9 on the sample catalog, without DuckDB and with an engine. *)
Lemma main_runs_only_stub_queries_witness :
  parsed_args (Sample.cli "debug" None) = true /\
  filter is_engine_event
    (trace (main lower_ascii Sample.py_str false Sample.working_engine
              (Sample.fs_with Sample.catalog_doc) (Sample.cli "debug" None))) = [] /\
  In "DESCRIBE SELECT * FROM read_parquet('orders/*.parquet') LIMIT 5" stub_queries.
Proof.
  split; [reflexivity|].
  destruct (main_runs_only_stub_queries lower_ascii Sample.py_str Sample.rows
              Sample.working_engine false (Sample.fs_with Sample.catalog_doc)
              (Sample.cli "debug" None) eq_refl) as (_ & _ & Hoff & _).
  split; [exact (Hoff eq_refl)|].
  destruct (main_runs_only_stub_queries lower_ascii Sample.py_str Sample.rows
              Sample.working_engine true (Sample.fs_with Sample.catalog_doc)
              (Sample.cli "debug" None) eq_refl) as (_ & Hq & _ & _).
  apply Hq; vm_compute; tauto.
Defined.

(** X11 on the sample catalog. *)
Lemma returning_main_prints_done_last_witness :
  exists t,
    trace (main lower_ascii Sample.py_str true Sample.working_engine
             (Sample.fs_with Sample.catalog_doc) (Sample.cli "debug" None))
    = (t ++ [EvPrint done_line])%list.
Proof.
  destruct (returning_main_prints_done_last lower_ascii Sample.py_str Sample.rows
              Sample.working_engine true (Sample.fs_with Sample.catalog_doc)
              (Sample.cli "debug" None) eq_refl) as (t & Ht & _).
  exists t; exact Ht.
Defined.

(** X13 on the sample catalog without DuckDB: the report on customers. *)
Lemma report_table_spec_witness :
  report_table lower_ascii Sample.py_str false Sample.working_engine
    Sample.catalog_doc "data" "customers"
  = ([EvPrint (nl ++ "Table: customers");
      EvPrint "  Description: One row per customer";
      EvPrint "  Columns:";
      EvPrint "    id: INTEGER - No description.";
      EvPrint "    name: VARCHAR - No description.";
      EvPrint (nl ++ "  Sample Data (DuckDB):");
      EvPrint not_available;
      EvPrint (nl ++ "  Table Schema (DuckDB):");
      EvPrint not_available],
     Ret tt) /\
  report_table lower_ascii Sample.py_str false Sample.working_engine
    Sample.catalog_doc "data" "products"
  = ([EvPrint "Table 'products' not found in catalog."], Ret tt).
Proof.
  split.
  - rewrite (report_table_spec lower_ascii Sample.py_str Sample.rows
               Sample.working_engine false Sample.catalog_doc Sample.nodes
               "data" "customers" eq_refl eq_refl).
    reflexivity.
  - rewrite (report_table_spec lower_ascii Sample.py_str Sample.rows
               Sample.working_engine false Sample.catalog_doc Sample.nodes
               "data" "products" eq_refl eq_refl).
    reflexivity.
Defined.

(** X14 on a catalog whose orders node has no [columns]: customers is
    reported as not found, then the report on orders raises after three
    lines; products, the advice and the closing line do not appear. *)
Lemma main_stops_at_first_failing_table_witness :
  main lower_ascii Sample.py_str true Sample.working_engine
       (Sample.fs_with Cases.bare_orders_doc) (Sample.cli "debug" None)
  = ([EvOpen "target/catalog.json";
      EvPrint "Debug mode:  No LLM call.";
      EvPrint "Debug response:  The relevant tables are: customers, orders, and products.";
      EvPrint "Table 'customers' not found in catalog.";
      EvPrint (nl ++ "Table: orders");
      EvPrint "  Description: No description available.";
      EvPrint "  Columns:"],
     Raise (KeyError "columns")).
Proof.
  destruct (main_stops_at_first_failing_table lower_ascii Sample.py_str Sample.rows
              Sample.working_engine true (Sample.fs_with Cases.bare_orders_doc)
              (Sample.cli "debug" None) Cases.bare_orders_doc [PyStr "orders"]
              ["customers"] ["products"] "orders" (KeyError "columns")
              eq_refl eq_refl eq_refl eq_refl eq_refl)
    as (_ & lines & response & Hr & Hm).
  - intros y [<-|[]]; reflexivity.
  - reflexivity.
  - rewrite Hm; injection Hr as <- <-; reflexivity.
Defined.
